(** * rago: retrieval augmentation (OpenAIAug) and generation (LlamaGen)

    A shallow embedding of [src/rago/augmented/openai.py] and
    [src/rago/generation/llama.py].

    Python [str] values are modelled by [string]; every character stands for
    one code point below 256.  Python [int] is [Z], [float] is the primitive
    [float], a [list] is a [list], a [dict] with string keys is a
    [gmap string _].  A call that may raise returns a [result]; a method that
    also mutates its object or talks to a collaborator runs in the state and
    error monad [M]. *)

From Stdlib Require Import ZArith List String Ascii Bool Lia PrimFloat.
From stdpp Require Import base option gmap strings.

Import ListNotations.
Local Open Scope string_scope.
Local Open Scope list_scope.

(** ** Python values, exceptions and built-ins *)

Module Py.

(** The exception classes raised by the two source files and by the
    built-ins they use; [Raised] stands for whatever a collaborator throws. *)
Inductive exn : Type :=
| Exception (msg : string)
| ValueError (msg : string)
| IndexError (msg : string)
| AttributeError (msg : string)
| Raised (cls msg : string).

Definition result (A : Type) : Type := exn + A.

(** [ok a] is a normal return, [raise e] an exception on its way up. *)
Abbreviation ok := (@inr exn _).
Abbreviation raise := (@inl exn _).

(** *** Truthiness, as used by [not x] and [x or y] *)

Definition truthy_str (s : string) : bool :=
  match s with EmptyString => false | String _ _ => true end.

Definition truthy_opt_str (o : option string) : bool :=
  match o with Some s => truthy_str s | None => false end.

Definition truthy_int (z : Z) : bool := negb (z =? 0)%Z.

Definition truthy_opt_int (o : option Z) : bool :=
  match o with Some z => truthy_int z | None => false end.

(** *** [str] methods *)

(** [s[n:]] and [s[:n]] for [0 <= n]. *)
Fixpoint drop (n : nat) (s : string) : string :=
  match n, s with
  | O, _ => s
  | S _, EmptyString => EmptyString
  | S n', String _ s' => drop n' s'
  end.

Fixpoint take (n : nat) (s : string) : string :=
  match n, s with
  | O, _ => EmptyString
  | S _, EmptyString => EmptyString
  | S n', String c s' => String c (take n' s')
  end.

(** [s.startswith(p)] *)
Definition startswith (s p : string) : bool := String.prefix p s.

(** [sub] occurs in [s] as a contiguous run of characters. *)
Definition occurs (sub s : string) : Prop :=
  exists pre post, s = (pre ++ sub ++ post)%string.

(** [s.find(sub)]: the lowest index where [sub] occurs, [None] for [-1]. *)
Fixpoint find (s sub : string) : option nat :=
  if startswith s sub then Some O
  else match s with
       | EmptyString => None
       | String _ s' => option_map S (find s' sub)
       end.

(** [s.split(sep, maxsplit)] for a non-empty [sep]: cut at the leftmost
    occurrence, at most [maxsplit] times; what is left is the last piece. *)
Fixpoint split_max (maxsplit : nat) (s sep : string) : list string :=
  match maxsplit with
  | O => [s]
  | S m =>
      match find s sep with
      | None => [s]
      | Some i => take i s :: split_max m (drop (i + String.length sep) s) sep
      end
  end.

(** [s.split(sep)].  No limit on the number of cuts: every cut removes at
    least one character, so on a string of [n] characters [maxsplit = n]
    cuts as often as any larger limit does. *)
Definition split (s sep : string) : result (list string) :=
  match sep with
  | EmptyString => raise (ValueError "empty separator")
  | String _ _ => ok (split_max (String.length s) s sep)
  end.

(** [str.isspace] on one code point below 256: TAB..CR, FS..US, SPACE,
    NEL (0x85) and NBSP (0xA0). *)
Definition isspace (c : ascii) : bool :=
  let n := nat_of_ascii c in
  (((9 <=? n) && (n <=? 13)) || ((28 <=? n) && (n <=? 32))
   || (n =? 133) || (n =? 160))%nat.

Fixpoint lstrip (s : string) : string :=
  match s with
  | EmptyString => EmptyString
  | String c s' => if isspace c then lstrip s' else s
  end.

Fixpoint rstrip (s : string) : string :=
  match s with
  | EmptyString => EmptyString
  | String c s' =>
      match rstrip s' with
      | EmptyString => if isspace c then EmptyString else String c EmptyString
      | r => String c r
      end
  end.

(** [s.strip()] *)
Definition strip (s : string) : string := rstrip (lstrip s).

(** [sep.join(parts)] *)
Definition join (sep : string) (parts : list string) : string :=
  String.concat sep parts.

(** [str(x)] for an [x] that is a [str] already. *)
Definition str (s : string) : string := s.

(** *** [list] indexing *)

(** The offset read for the index [i] of a list of length [n]: a negative
    index counts from the end. *)
Definition offset (n : nat) (i : Z) : nat :=
  Z.to_nat (if (i <? 0)%Z then i + Z.of_nat n else i)%Z.

(** [l[i]]: a negative [i] counts from the end; outside
    [-len(l) <= i < len(l)] the access raises [IndexError]. *)
Definition getitem {A} (l : list A) (i : Z) : result A :=
  let n := Z.of_nat (List.length l) in
  let j := if (i <? 0)%Z then (i + n)%Z else i in
  if ((j <? 0) || (n <=? j))%Z then raise (IndexError "list index out of range")
  else match nth_error l (Z.to_nat j) with
       | Some x => ok x
       | None => raise (IndexError "list index out of range")
       end.

End Py.

(** ** The state and error monad of a method call

    [S] holds the object ([self]), the module-level state the method writes
    and the calls made to collaborators so far.  An exception leaves the
    mutations made before it in place, so the state is returned on both
    outcomes. *)

Module Eff.

Import Py.

Definition M (S A : Type) : Type := S -> result A * S.

Definition ret {S A} (a : A) : M S A := fun s => (ok a, s).

Definition bind {S A B} (c : M S A) (k : A -> M S B) : M S B :=
  fun s =>
    match c s with
    | (inr a, s') => k a s'
    | (inl e, s') => (inl e, s')
    end.

Definition throw {S A} (e : exn) : M S A := fun s => (raise e, s).

Definition lift {S A} (r : result A) : M S A := fun s => (r, s).

Definition get {S} : M S S := fun s => (ok s, s).

Definition modify {S} (f : S -> S) : M S unit := fun s => (ok tt, f s).

(** Python's [[f(x) for x in xs]]: left to right, stopping at the first
    exception. *)
Fixpoint for_each {A B} (f : A -> result B) (xs : list A) : result (list B) :=
  match xs with
  | [] => ok []
  | x :: xs' =>
      match f x with
      | inl e => inl e
      | inr y =>
          match for_each f xs' with
          | inl e => inl e
          | inr ys => ok (y :: ys)
          end
      end
  end.

Module Notations.
Notation "x <- c ;; k" := (bind c (fun x => k))
  (at level 100, c at next level, right associativity).
Notation "c ;;; k" := (bind c (fun _ => k))
  (at level 100, right associativity).
End Notations.

End Eff.

(** ** numpy arrays, as far as [get_embedding] uses them *)

Module Numpy.

Import Py.

Record ndarray : Type := { shape : list nat; data : list float }.

(** [np.array(l)] for a flat list of floats. *)
Definition array (l : list float) : ndarray :=
  {| shape := [List.length l]; data := l |}.

(** [a.size] *)
Definition size (a : ndarray) : nat := fold_right Nat.mul 1%nat (shape a).

(** [a.reshape(d0, d1, ...)] *)
Definition reshape (a : ndarray) (newshape : list nat) : result ndarray :=
  if (fold_right Nat.mul 1%nat newshape =? size a)%nat
  then ok {| shape := newshape; data := data a |}
  else raise (ValueError "cannot reshape array").

End Numpy.

(** ** [rago.augmented.openai]: class [OpenAIAug] *)

Module OpenAIAug.

Import Py Eff Eff.Notations Numpy.

(** Calls that leave the adapter, in the order they are made. *)
Inductive event : Type :=
| OpenAI_new (api_key : string)
| embeddings_create (input : list string) (model : string)
| db_embed (vectors : ndarray)
| db_search (query_encoded : ndarray) (top_k : Z).

(** The provider client built by [openai.OpenAI(api_key=...)].  Its answer
    to [embeddings.create] may depend on every call made before; the
    response is reduced to the list [[d.embedding for d in response.data]]. *)
Record Client : Type := {
  create : list event -> list string -> string -> result (list (list float))
}.

(** The vector index [self.db]: [truth] is what [bool(self.db)] gives;
    [embed] and [search_index] are its methods [embed] and [search], the
    second returning [(scores, indices)]. *)
Record VectorDB : Type := {
  truth : bool;
  embed : list event -> ndarray -> result unit;
  search_index : list event -> ndarray -> Z -> result (list float * list Z)
}.

(** An attribute that may not exist on the object, hold [None], or hold a
    value. *)
Inductive attribute (A : Type) : Type :=
| Missing
| IsNone
| Value (a : A).
Arguments Missing {A}.
Arguments IsNone {A}.
Arguments Value {A} a.

(** What [search] stores under [self.logs]. *)
Inductive log_value : Type :=
| LogIndices (indices : list Z)
| LogScores (scores : list float)
| LogSearchParams (query_encoded : ndarray) (top_k : Z).

(** The instance attributes the two methods read and write. *)
Module Self.
Record t : Type := {
  api_key : option string;
  model_name : string;
  model : option Client;
  top_k : option Z;
  db : attribute VectorDB;
  logs : gmap string log_value
}.
End Self.

(** The object, the module attribute [openai.api_key], and the calls made. *)
Record state : Type := {
  self : Self.t;
  openai_api_key : option string;
  trace : list event
}.

Definition default_model_name : string := "text-embedding-3-small".
Definition default_top_k : Z := 2.

Definition set_self (f : Self.t -> Self.t) : M state unit :=
  modify (fun s => {| self := f (self s);
                      openai_api_key := openai_api_key s;
                      trace := trace s |}).

Definition record (ev : event) (s : state) : state :=
  {| self := self s;
     openai_api_key := openai_api_key s;
     trace := trace s ++ [ev] |}.

(** A call to a collaborator: it is answered from the calls seen so far and
    then recorded, whether it returns or raises. *)
Definition call {A} (ev : event) (answer : list event -> result A) : M state A :=
  fun s => (answer (trace s), record ev s).

Section Methods.

(** [openai.OpenAI]: the constructor of the provider client. *)
Variable OpenAI : list event -> string -> result Client.

(** [OpenAIAug._setup], lines 27-33. *)
Definition _setup : M state unit :=
  s <- get ;;
  if negb (truthy_opt_str (Self.api_key (self s)))
  then throw (ValueError "API key for OpenAI is required.")
  else
    let key := default "" (Self.api_key (self s)) in
    modify (fun s => {| self := self s;
                        openai_api_key := Self.api_key (self s);
                        trace := trace s |}) ;;;
    set_self (fun o =>
      {| Self.api_key := Self.api_key o;
         Self.model_name := if truthy_str (Self.model_name o)
                            then Self.model_name o else default_model_name;
         Self.model := Self.model o;
         Self.top_k := Self.top_k o;
         Self.db := Self.db o;
         Self.logs := Self.logs o |}) ;;;
    client <- call (OpenAI_new key) (fun tr => OpenAI tr key) ;;
    set_self (fun o =>
      {| Self.api_key := Self.api_key o;
         Self.model_name := Self.model_name o;
         Self.model := Some client;
         Self.top_k := Self.top_k o;
         Self.db := Self.db o;
         Self.logs := Self.logs o |}).

End Methods.

(** [OpenAIAug.get_embedding], lines 35-44. *)
Definition get_embedding (content : list string) : M state ndarray :=
  s <- get ;;
  match Self.model (self s) with
  | None =>
      throw (AttributeError "'OpenAIAug' object has no attribute 'model'")
  | Some model =>
      response <- call (embeddings_create content (Self.model_name (self s)))
                       (fun tr => create model tr content
                                         (Self.model_name (self s))) ;;
      first <- lift (getitem response 0) ;;
      let result := array first in
      lift (reshape result [1%nat; size result])
  end.

(** Line 50: [not hasattr(self, 'db') or not self.db] is false exactly when
    the attribute exists and holds a truthy object. *)
Definition attached_db (o : Self.t) : option VectorDB :=
  match Self.db o with
  | Value d => if truth d then Some d else None
  | _ => None
  end.

(** Line 56: [top_k or self.top_k or self.default_top_k or 1]; an [or]
    yields its first truthy operand, and the last one when none is. *)
Definition resolve_top_k (top_k : Z) (self_top_k : option Z)
                         (default_top_k : Z) : Z :=
  if truthy_int top_k then top_k
  else if truthy_opt_int self_top_k then default 0%Z self_top_k
  else if truthy_int default_top_k then default_top_k
  else 1%Z.

Definition set_log (key : string) (v : log_value) : M state unit :=
  set_self (fun o =>
    {| Self.api_key := Self.api_key o;
       Self.model_name := Self.model_name o;
       Self.model := Self.model o;
       Self.top_k := Self.top_k o;
       Self.db := Self.db o;
       Self.logs := <[key := v]> (Self.logs o) |}).

(** The local variables of [search] that are live after line 59. *)
Record Found : Type := {
  query_encoded : ndarray;
  used_top_k : Z;
  scores : list float;
  indices : list Z
}.

(** [OpenAIAug.search], lines 50-59: from the guard to the answer of the
    index. *)
Definition search_query (query : string) (documents : list string) (top_k : Z)
  : M state Found :=
  s <- get ;;
  match attached_db (self s) with
  | None => throw (Exception "Vector database (db) is not initialized.")
  | Some db =>
      document_encoded <- get_embedding documents ;;
      query_encoded <- get_embedding [query] ;;
      let top_k := resolve_top_k top_k (Self.top_k (self s)) default_top_k in
      call (db_embed document_encoded)
           (fun tr => embed db tr document_encoded) ;;;
      found <- call (db_search query_encoded top_k)
                    (fun tr => search_index db tr query_encoded top_k) ;;
      ret {| query_encoded := query_encoded; used_top_k := top_k;
             scores := fst found; indices := snd found |}
  end.

(** [OpenAIAug.search], lines 61-70: from the positions to the documents,
    and the log. *)
Definition search_collect (documents : list string) (found : Found)
  : M state (list string) :=
  retrieved_docs <- lift (for_each (getitem documents) (indices found)) ;;
  set_log "indices" (LogIndices (indices found)) ;;;
  set_log "scores" (LogScores (scores found)) ;;;
  set_log "search_params"
          (LogSearchParams (query_encoded found) (used_top_k found)) ;;;
  ret retrieved_docs.

(** [OpenAIAug.search], lines 46-70. *)
Definition search (query : string) (documents : list string) (top_k : Z)
  : M state (list string) :=
  found <- search_query query documents top_k ;;
  search_collect documents found.

End OpenAIAug.

(** ** [rago.generation.llama]: class [LlamaGen] *)

Module LlamaGen.

Import Py Eff Eff.Notations.

Inductive torch_dtype : Type := float16 | float32.

(** The tokenizer object: the two attributes [generate] touches. *)
Record Tokenizer : Type := {
  lang_code : option string;
  eos_token_id : option Z
}.

(** The keyword arguments of the pipeline call, lines 63-72. *)
Module Params.
Record t : Type := {
  text_inputs : string;
  max_new_tokens : Z;
  do_sample : bool;
  temperature : float;
  top_k : Z;
  top_p : float;
  num_return_sequences : Z;
  eos_token_id : option Z
}.
End Params.

(** Calls that leave the adapter, in the order they are made. *)
Inductive event : Type :=
| AutoTokenizer_from_pretrained (name : string) (token : option string)
| AutoModelForCausalLM_from_pretrained
    (name : string) (token : option string) (dtype : torch_dtype)
| pipeline_new (task : string) (device : Z)
| detect_call (text : string)
| generator_call (params : Params.t).

(** The text-generation pipeline [self.generator].  It holds the very
    tokenizer object [self.tokenizer] names, so a call sees the tokenizer as
    it is at that moment; it returns a list of dicts. *)
Record Pipeline : Type := {
  run : list event -> Tokenizer -> Params.t -> result (list (gmap string string))
}.

(** The instance attributes; the loaded model is opaque to the adapter, so
    the object is generic in its type. *)
Module Self.
Record t (CausalLM : Type) : Type := {
  model_name : string;
  api_key : option string;
  device_name : string;
  temperature : float;
  output_max_length : Z;
  prompt_template : string;
  tokenizer : option Tokenizer;
  model : option CausalLM;
  generator : option Pipeline;
  logs : gmap string Params.t
}.
Arguments model_name {CausalLM} _.
Arguments api_key {CausalLM} _.
Arguments device_name {CausalLM} _.
Arguments temperature {CausalLM} _.
Arguments output_max_length {CausalLM} _.
Arguments prompt_template {CausalLM} _.
Arguments tokenizer {CausalLM} _.
Arguments model {CausalLM} _.
Arguments generator {CausalLM} _.
Arguments logs {CausalLM} _.
End Self.

Record state (CausalLM : Type) : Type := {
  self : Self.t CausalLM;
  trace : list event
}.
Arguments self {CausalLM} _.
Arguments trace {CausalLM} _.

Definition default_model_name : string := "meta-llama/Llama-3.2-1B".
Definition default_temperature : float := 0.5%float.
Definition default_output_max_length : Z := 500.

Section Methods.

Variable CausalLM : Type.

(** The module-level collaborators: the two Hugging Face loaders, the
    pipeline factory, [langdetect.detect], and [str.format] applied as
    [template.format(query=..., context=...)]. *)
Variable AutoTokenizer :
  list event -> string -> option string -> result Tokenizer.
Variable AutoModelForCausalLM :
  list event -> string -> option string -> torch_dtype -> result CausalLM.
Variable pipeline :
  list event -> string -> CausalLM -> Tokenizer -> Z -> result Pipeline.
Variable detect : list event -> string -> result string.
Variable format : string -> string -> string -> result string.

Let St : Type := state CausalLM.

Definition set_self (f : Self.t CausalLM -> Self.t CausalLM) : M St unit :=
  modify (fun s => {| self := f (self s); trace := trace s |}).

Definition record (ev : event) (s : St) : St :=
  {| self := self s; trace := trace s ++ [ev] |}.

Definition call {A} (ev : event) (answer : list event -> result A) : M St A :=
  fun s => (answer (trace s), record ev s).

(** [LlamaGen._validate], lines 22-28. *)
Definition _validate : M St unit :=
  s <- get ;;
  if negb (startswith (Self.model_name (self s)) "meta-llama/")
  then throw (Exception ("The given model name " ++ Self.model_name (self s)
                         ++ " is not provided by meta."))
  else ret tt.

Definition is_cuda (device_name : string) : bool :=
  if string_dec device_name "cuda" then true else false.

(** [LlamaGen._setup], lines 30-49. *)
Definition _setup : M St unit :=
  s <- get ;;
  let name := Self.model_name (self s) in
  let token := Self.api_key (self s) in
  let device_name := Self.device_name (self s) in
  tok <- call (AutoTokenizer_from_pretrained name token)
              (fun tr => AutoTokenizer tr name token) ;;
  set_self (fun o =>
    {| Self.model_name := Self.model_name o; Self.api_key := Self.api_key o;
       Self.device_name := Self.device_name o;
       Self.temperature := Self.temperature o;
       Self.output_max_length := Self.output_max_length o;
       Self.prompt_template := Self.prompt_template o;
       Self.tokenizer := Some tok;
       Self.model := Self.model o; Self.generator := Self.generator o;
       Self.logs := Self.logs o |}) ;;;
  let dtype := if is_cuda device_name then float16 else float32 in
  lm <- call (AutoModelForCausalLM_from_pretrained name token dtype)
             (fun tr => AutoModelForCausalLM tr name token dtype) ;;
  set_self (fun o =>
    {| Self.model_name := Self.model_name o; Self.api_key := Self.api_key o;
       Self.device_name := Self.device_name o;
       Self.temperature := Self.temperature o;
       Self.output_max_length := Self.output_max_length o;
       Self.prompt_template := Self.prompt_template o;
       Self.tokenizer := Self.tokenizer o;
       Self.model := Some lm; Self.generator := Self.generator o;
       Self.logs := Self.logs o |}) ;;;
  let device := if is_cuda device_name then 0%Z else (-1)%Z in
  gen <- call (pipeline_new "text-generation" device)
              (fun tr => pipeline tr "text-generation" lm tok device) ;;
  set_self (fun o =>
    {| Self.model_name := Self.model_name o; Self.api_key := Self.api_key o;
       Self.device_name := Self.device_name o;
       Self.temperature := Self.temperature o;
       Self.output_max_length := Self.output_max_length o;
       Self.prompt_template := Self.prompt_template o;
       Self.tokenizer := Self.tokenizer o;
       Self.model := Self.model o; Self.generator := Some gen;
       Self.logs := Self.logs o |}).

(** Modelled from the spec: the constructor of [GenerationBase], which is
    not among the sources.  The spec's state machine for the generator is
    Unconfigured, Validated, Configured: [_validate] runs first and
    [_setup] only after it returned. *)
Definition setup : M St unit := _validate ;;; _setup.

(** Line 59, [self.tokenizer.lang_code = language]: an attribute store on
    the tokenizer object; it raises while [_setup] has not assigned
    [self.tokenizer]. *)
Definition set_lang_code (language : string) : M St Tokenizer :=
  s <- get ;;
  match Self.tokenizer (self s) with
  | None =>
      throw (AttributeError "'LlamaGen' object has no attribute 'tokenizer'")
  | Some tok =>
      let tok' := {| lang_code := Some language;
                     eos_token_id := eos_token_id tok |} in
      set_self (fun o =>
        {| Self.model_name := Self.model_name o;
           Self.api_key := Self.api_key o;
           Self.device_name := Self.device_name o;
           Self.temperature := Self.temperature o;
           Self.output_max_length := Self.output_max_length o;
           Self.prompt_template := Self.prompt_template o;
           Self.tokenizer := Some tok';
           Self.model := Self.model o; Self.generator := Self.generator o;
           Self.logs := Self.logs o |}) ;;;
      ret tok'
  end.

Definition set_log (key : string) (v : Params.t) : M St unit :=
  set_self (fun o =>
    {| Self.model_name := Self.model_name o; Self.api_key := Self.api_key o;
       Self.device_name := Self.device_name o;
       Self.temperature := Self.temperature o;
       Self.output_max_length := Self.output_max_length o;
       Self.prompt_template := Self.prompt_template o;
       Self.tokenizer := Self.tokenizer o;
       Self.model := Self.model o; Self.generator := Self.generator o;
       Self.logs := <[key := v]> (Self.logs o) |}).

(** The literal of line 80. *)
Definition marker : string := "Answer:".

(** Lines 78-80: [str(response[0].get('generated_text', ''))], then
    [answer.split('Answer:')[-1].strip()]. *)
Definition extract_answer (response : list (gmap string string))
  : result string :=
  match getitem response 0 with
  | inl e => inl e
  | inr first =>
      let answer := str (default "" (first !! "generated_text")) in
      match split answer marker with
      | inl e => inl e
      | inr pieces =>
          match getitem pieces (-1) with
          | inl e => inl e
          | inr piece => ok (strip piece)
          end
      end
  end.

(** Lines 63-72: the dict [model_params]. *)
Definition model_params (o : Self.t CausalLM) (input_text : string)
                        (tok : Tokenizer) : Params.t :=
  {| Params.text_inputs := input_text;
     Params.max_new_tokens := Self.output_max_length o;
     Params.do_sample := true;
     Params.temperature := Self.temperature o;
     Params.top_k := 50;
     Params.top_p := 0x1.e666666666666p-1%float;
     Params.num_return_sequences := 1;
     Params.eos_token_id := eos_token_id tok |}.

(** [LlamaGen.generate], lines 51-80. *)
Definition generate (query : string) (context : list string) : M St string :=
  s <- get ;;
  input_text <- lift (format (Self.prompt_template (self s)) query
                             (join " " context)) ;;
  detected <- call (detect_call query) (fun tr => detect tr query) ;;
  let language := if truthy_str (str detected) then str detected else "en" in
  tok <- set_lang_code language ;;
  let model_params := model_params (self s) input_text tok in
  match Self.generator (self s) with
  | None =>
      throw (AttributeError "'LlamaGen' object has no attribute 'generator'")
  | Some generator =>
      response <- call (generator_call model_params)
                       (fun tr => run generator tr tok model_params) ;;
      set_log "model_params" model_params ;;;
      lift (extract_answer response)
  end.

End Methods.

End LlamaGen.

(** ** A deterministic provider, index and model runtime

    Stand-ins for the collaborators, used to run the two adapters on
    concrete inputs. *)

Module Stub.

Import Py Numpy.

(** One embedding per text: the first text gets [[0.5, 0.25]], every other
    one [[1.0, 0.0]]. *)
Definition client : OpenAIAug.Client :=
  {| OpenAIAug.create := fun _ input _ =>
       match input with
       | [] => ok []
       | _ :: more =>
           ok ([0.5%float; 0.25%float]
               :: map (fun _ => [1%float; 0%float]) more)
       end |}.

(** An index that answers every query with the given positions. *)
Definition index (positions : list Z) : OpenAIAug.VectorDB :=
  {| OpenAIAug.truth := true;
     OpenAIAug.embed := fun _ _ => ok tt;
     OpenAIAug.search_index := fun _ _ _ =>
       ok (map (fun _ => 1%float) positions, positions) |}.

(** A configured augmenter with the attribute [db] as given. *)
Definition augmenter (api_key : option string)
                     (db : OpenAIAug.attribute OpenAIAug.VectorDB)
  : OpenAIAug.state :=
  {| OpenAIAug.self :=
       {| OpenAIAug.Self.api_key := api_key;
          OpenAIAug.Self.model_name := "text-embedding-3-small";
          OpenAIAug.Self.model := Some client;
          OpenAIAug.Self.top_k := None;
          OpenAIAug.Self.db := db;
          OpenAIAug.Self.logs := ∅ |};
     OpenAIAug.openai_api_key := None;
     OpenAIAug.trace := [] |}.

Definition OpenAI (_ : list OpenAIAug.event) (_ : string)
  : result OpenAIAug.Client := ok client.

Definition tokenizer : LlamaGen.Tokenizer :=
  {| LlamaGen.lang_code := None; LlamaGen.eos_token_id := Some 2%Z |}.

(** A pipeline that always generates [text]. *)
Definition generator (text : string) : LlamaGen.Pipeline :=
  {| LlamaGen.run := fun _ _ _ => ok [ {[ "generated_text" := text ]} ] |}.

Definition AutoTokenizer (_ : list LlamaGen.event) (_ : string)
                         (_ : option string) : result LlamaGen.Tokenizer :=
  ok tokenizer.

Definition AutoModelForCausalLM (_ : list LlamaGen.event) (_ : string)
    (_ : option string) (_ : LlamaGen.torch_dtype) : result unit :=
  ok tt.

Definition pipeline (_ : list LlamaGen.event) (_ : string) (_ : unit)
    (_ : LlamaGen.Tokenizer) (_ : Z) : result LlamaGen.Pipeline :=
  ok (generator "Answer: 42").

(** A detector that finds nothing, and one that gives up. *)
Definition detect_empty (_ : list LlamaGen.event) (_ : string)
  : result string := ok "".

Definition detect_raises (_ : list LlamaGen.event) (_ : string)
  : result string :=
  raise (Raised "LangDetectException" "No features in text.").

(** [template.format(query=..., context=...)] for a template that is just
    [{query} {context}]. *)
Definition format (_ query context : string) : result string :=
  ok (query ++ " " ++ context)%string.

(** A generator object before ([loaded = false]) or after [_setup]. *)
Definition llama (model_name : string) (api_key : option string)
                 (loaded : bool) : LlamaGen.state unit :=
  {| LlamaGen.self :=
       {| LlamaGen.Self.model_name := model_name;
          LlamaGen.Self.api_key := api_key;
          LlamaGen.Self.device_name := "cpu";
          LlamaGen.Self.temperature := LlamaGen.default_temperature;
          LlamaGen.Self.output_max_length :=
            LlamaGen.default_output_max_length;
          LlamaGen.Self.prompt_template := "{query} {context}";
          LlamaGen.Self.tokenizer := if loaded then Some tokenizer else None;
          LlamaGen.Self.model := if loaded then Some tt else None;
          LlamaGen.Self.generator :=
            if loaded then Some (generator "Answer: 42") else None;
          LlamaGen.Self.logs := ∅ |};
     LlamaGen.trace := [] |}.

End Stub.

(** ** Collaborators that fail

    A provider, an index and a model runtime that raise or answer with
    nothing, for running the adapters into their error paths. *)

Module Faulty.

Import Py Numpy.

Definition refused : exn := Raised "APIConnectionError" "Connection error.".

(** [openai.OpenAI] raising. *)
Definition OpenAI (_ : list OpenAIAug.event) (_ : string)
  : result OpenAIAug.Client := raise refused.

(** A provider whose response holds no embedding at all. *)
Definition silent_client : OpenAIAug.Client :=
  {| OpenAIAug.create := fun _ _ _ => ok [] |}.

(** A provider that raises on every request. *)
Definition broken_client : OpenAIAug.Client :=
  {| OpenAIAug.create := fun _ _ _ => raise refused |}.

(** A provider that answers the first request and raises on later ones. *)
Definition tired_client : OpenAIAug.Client :=
  {| OpenAIAug.create := fun tr _ _ =>
       match tr with
       | [] => ok [[0.5%float; 0.25%float]]
       | _ :: _ => raise refused
       end |}.

(** An augmenter around the given client, with the given index and log. *)
Definition augmenter (client : option OpenAIAug.Client)
                     (db : OpenAIAug.attribute OpenAIAug.VectorDB)
                     (logs : gmap string OpenAIAug.log_value)
  : OpenAIAug.state :=
  {| OpenAIAug.self :=
       {| OpenAIAug.Self.api_key := Some "sk";
          OpenAIAug.Self.model_name := "";
          OpenAIAug.Self.model := client;
          OpenAIAug.Self.top_k := Some 3%Z;
          OpenAIAug.Self.db := db;
          OpenAIAug.Self.logs := logs |};
     OpenAIAug.openai_api_key := None;
     OpenAIAug.trace := [] |}.

Definition out_of_memory : exn := Raised "OutOfMemoryError" "CUDA out of memory.".

(** A model loader that raises. *)
Definition AutoModelForCausalLM (_ : list LlamaGen.event) (_ : string)
    (_ : option string) (_ : LlamaGen.torch_dtype) : result unit :=
  raise out_of_memory.

(** A pipeline that raises, and one that returns no sequence. *)
Definition broken_generator : LlamaGen.Pipeline :=
  {| LlamaGen.run := fun _ _ _ => raise out_of_memory |}.

Definition silent_generator : LlamaGen.Pipeline :=
  {| LlamaGen.run := fun _ _ _ => ok [] |}.

(** A detector that always answers French. *)
Definition detect_fr (_ : list LlamaGen.event) (_ : string)
  : result string := ok "fr".

(** A loaded generator object around the given pipeline. *)
Definition llama (device_name : string) (pipeline : LlamaGen.Pipeline)
  : LlamaGen.state unit :=
  {| LlamaGen.self :=
       {| LlamaGen.Self.model_name := "meta-llama/Llama-3.2-1B";
          LlamaGen.Self.api_key := Some "hf_token";
          LlamaGen.Self.device_name := device_name;
          LlamaGen.Self.temperature := LlamaGen.default_temperature;
          LlamaGen.Self.output_max_length :=
            LlamaGen.default_output_max_length;
          LlamaGen.Self.prompt_template := "{query} {context}";
          LlamaGen.Self.tokenizer := Some Stub.tokenizer;
          LlamaGen.Self.model := Some tt;
          LlamaGen.Self.generator := Some pipeline;
          LlamaGen.Self.logs := ∅ |};
     LlamaGen.trace := [] |}.

End Faulty.

(** ** Notions used to state properties of the results *)

Module Notions.

Import Py Numpy.

(** Every character of [s] is whitespace for [str.isspace]. *)
Fixpoint all_space (s : string) : bool :=
  match s with
  | EmptyString => true
  | String c s' => isspace c && all_space s'
  end.

(** [s] neither starts nor ends with a whitespace character. *)
Definition trimmed (s : string) : Prop :=
  forall c s', s = String c s' \/ s = (s' ++ String c "")%string ->
               isspace c = false.

(** The two-dimensional array with the single row [first]. *)
Definition row (first : list float) : ndarray :=
  {| shape := [1%nat; List.length first]; data := first |}.

End Notions.

(** * Properties *)

(** ** Facts about the Python built-ins *)

Module PyFacts.

Import Py.
Local Open Scope string_scope.
Local Arguments String.append : simpl nomatch.

Lemma length_append (a b : string) :
  String.length (a ++ b) = (String.length a + String.length b)%nat.
Proof. induction a as [|x a IH]; simpl; [reflexivity | now rewrite IH]. Qed.

Lemma take_drop (n : nat) (s : string) : take n s ++ drop n s = s.
Proof.
  revert s; induction n as [|n IH]; intros [|c s]; simpl; try reflexivity.
  now rewrite IH.
Qed.

Lemma drop_append_le (n : nat) (a b : string) :
  (n <= String.length a)%nat -> drop n (a ++ b) = drop n a ++ b.
Proof.
  revert a; induction n as [|n IH]; intros [|c a] Hn; simpl in *;
    try reflexivity; try lia.
  apply IH; lia.
Qed.

Lemma drop_length_append (a b : string) : drop (String.length a) (a ++ b) = b.
Proof. induction a as [|c a IH]; simpl; [now destruct b | exact IH]. Qed.

Lemma drop_add (n m : nat) (s : string) : drop (n + m) s = drop m (drop n s).
Proof.
  revert s; induction n as [|n IH]; intros s; simpl; [reflexivity|].
  destruct s as [|c s]; [now destruct m | apply IH].
Qed.

Lemma length_drop (n : nat) (s : string) :
  String.length (drop n s) = (String.length s - n)%nat.
Proof.
  revert s; induction n as [|n IH]; intros [|c s]; simpl; try lia.
  apply IH.
Qed.

(** [startswith] is the prefix relation. *)
Lemma startswith_iff (s p : string) :
  startswith s p = true <-> exists rest, s = p ++ rest.
Proof.
  unfold startswith. revert s; induction p as [|a p IH]; intros [|b s]; simpl.
  - split; [intros _; now exists "" | reflexivity].
  - split; [intros _; now exists (String b s) | reflexivity].
  - split; [discriminate | intros [rest H]; discriminate].
  - destruct (ascii_dec a b) as [->|Hne].
    + split.
      * intros [rest H]%IH; exists rest; now rewrite H.
      * intros [rest H]; apply IH; exists rest; now inversion H.
    + split; [discriminate | intros [rest H]; inversion H; congruence].
Qed.

Lemma startswith_append (p rest : string) : startswith (p ++ rest) p = true.
Proof. apply startswith_iff; now exists rest. Qed.

Lemma startswith_get (s p : string) (k : nat) :
  startswith s p = true -> (k < String.length p)%nat ->
  String.get k s = String.get k p.
Proof.
  intros [rest ->]%startswith_iff Hk.
  symmetry; now apply append_correct1.
Qed.

Lemma get_drop (n k : nat) (s : string) :
  String.get k (drop n s) = String.get (n + k) s.
Proof.
  revert s; induction n as [|n IH]; intros s; simpl; [reflexivity|].
  destruct s as [|c s]; simpl; [now destruct k | apply IH].
Qed.

Lemma find_eq (s sub : string) :
  find s sub =
  if startswith s sub then Some O
  else match s with
       | EmptyString => None
       | String _ s' => option_map S (find s' sub)
       end.
Proof. now destruct s. Qed.

(** [find] returns the leftmost position where [sub] starts. *)
Lemma find_Some (s sub : string) (i : nat) :
  find s sub = Some i ->
  startswith (drop i s) sub = true /\
  (forall j, (j < i)%nat -> startswith (drop j s) sub = false).
Proof.
  revert i; induction s as [|c s IH]; intros i; rewrite find_eq;
    match goal with |- context [if ?b then _ else _] => destruct b eqn:E end.
  - intros [= <-]; split; [exact E | intros j Hj; lia].
  - discriminate.
  - intros [= <-]; split; [exact E | intros j Hj; lia].
  - destruct (find s sub) as [i'|] eqn:F; simpl; [|discriminate].
    intros [= <-]. destruct (IH i' eq_refl) as [H1 H2].
    split; [exact H1|].
    intros [|j] Hj; simpl; [exact E | apply H2; lia].
Qed.

Lemma find_None (s sub : string) :
  find s sub = None -> forall j, startswith (drop j s) sub = false.
Proof.
  induction s as [|c s IH]; rewrite find_eq;
    match goal with |- context [if ?b then _ else _] => destruct b eqn:E end;
    try discriminate.
  - intros _ [|j]; exact E.
  - destruct (find s sub) eqn:F; simpl; [discriminate|].
    intros _ [|j]; simpl; [exact E | now apply IH].
Qed.

Lemma find_None_not_occurs (s sub : string) :
  ~ occurs sub s -> find s sub = None.
Proof.
  intros Hno. destruct (find s sub) as [i|] eqn:F; [|reflexivity].
  exfalso; apply Hno.
  destruct (find_Some _ _ _ F) as [[rest Hrest]%startswith_iff _].
  exists (take i s), rest. now rewrite <- Hrest, take_drop.
Qed.

Lemma occurs_find (pre sub post : string) :
  exists i, find (pre ++ sub ++ post) sub = Some i /\
            (i <= String.length pre)%nat /\
            startswith (drop i (pre ++ sub ++ post)) sub = true.
Proof.
  assert (Hocc : startswith (drop (String.length pre) (pre ++ sub ++ post)) sub
                 = true).
  { rewrite drop_length_append. apply startswith_append. }
  destruct (find (pre ++ sub ++ post) sub) as [i|] eqn:F.
  - exists i. destruct (find_Some _ _ _ F) as [H1 H2].
    repeat split; [|exact H1].
    destruct (le_lt_dec i (String.length pre)) as [Hle|Hlt]; [exact Hle|].
    rewrite (H2 _ Hlt) in Hocc; discriminate.
  - rewrite (find_None _ _ F) in Hocc; discriminate.
Qed.

(** Without a separator in it the string is the only piece. *)
Lemma split_max_absent (n : nat) (s sep : string) :
  ~ occurs sep s -> split_max n s sep = [s].
Proof.
  intros Hno. destruct n as [|n]; simpl; [reflexivity|].
  now rewrite (find_None_not_occurs _ _ Hno).
Qed.

Lemma getitem_last_cons {A} (x y : A) (l : list A) :
  getitem (x :: y :: l) (-1) = getitem (y :: l) (-1).
Proof.
  unfold getitem. cbn [List.length].
  replace (-1 <? 0)%Z with true by reflexivity.
  set (n := List.length l).
  replace ((-1 + Z.of_nat (S (S n)) <? 0)%Z) with false by (symmetry; apply Z.ltb_ge; lia).
  replace ((-1 + Z.of_nat (S n) <? 0)%Z) with false by (symmetry; apply Z.ltb_ge; lia).
  replace ((Z.of_nat (S (S n)) <=? -1 + Z.of_nat (S (S n)))%Z) with false
    by (symmetry; apply Z.leb_gt; lia).
  replace ((Z.of_nat (S n) <=? -1 + Z.of_nat (S n))%Z) with false
    by (symmetry; apply Z.leb_gt; lia).
  cbn [orb].
  replace (Z.to_nat (-1 + Z.of_nat (S (S n)))) with (S (Z.to_nat (-1 + Z.of_nat (S n)))) by lia.
  reflexivity.
Qed.

Lemma split_max_cons (n : nat) (s sep : string) :
  exists piece pieces, split_max n s sep = piece :: pieces.
Proof.
  destruct n as [|n]; simpl; [now exists s, []|].
  destruct (find s sep); eauto.
Qed.

Lemma find_None_absent (s sub : string) :
  find s sub = None -> ~ occurs sub s.
Proof.
  intros Hfind (pre & post & ->).
  destruct (occurs_find pre sub post) as (i & Hi & _). congruence.
Qed.

(** A limit of at least the length of the string is no limit. *)
Lemma split_max_enough (n m : nat) (s sep : string) :
  sep <> "" ->
  (String.length s <= n)%nat -> (String.length s <= m)%nat ->
  split_max n s sep = split_max m s sep.
Proof.
  intros Hsep. revert m s.
  assert (Hempty : forall k, split_max k "" sep = [""]).
  { intros [|k]; [reflexivity|]. cbn [split_max]. rewrite find_eq.
    destruct sep; [congruence | reflexivity]. }
  induction n as [|n IH]; intros m s Hn Hm.
  - destruct s; [|simpl in Hn; lia]. now rewrite !Hempty.
  - destruct m as [|m].
    + destruct s; [|simpl in Hm; lia]. now rewrite !Hempty.
    + cbn [split_max]. destruct (find s sep) as [i|] eqn:F; [|reflexivity].
      f_equal. apply find_Some in F as [[rest Hrest]%startswith_iff _].
      pose proof (length_drop i s) as Hd.
      rewrite Hrest, length_append in Hd.
      assert (Hpos : (1 <= String.length sep)%nat).
      { destruct sep; [congruence | simpl; lia]. }
      apply IH; rewrite length_drop; lia.
Qed.

End PyFacts.

(** ** Properties of [OpenAIAug] *)

Module OpenAIAugSpec.

Import Py Eff Numpy OpenAIAug PyFacts.

Lemma getitem_in_range {A} (l : list A) (i : Z) :
  (- Z.of_nat (List.length l) <= i < Z.of_nat (List.length l))%Z ->
  exists x, getitem l i = ok x /\ nth_error l (offset (List.length l) i) = Some x.
Proof.
  intros Hi. unfold getitem, offset.
  set (n := Z.of_nat (List.length l)) in *.
  set (j := (if (i <? 0)%Z then (i + n)%Z else i)).
  assert (Hj : (0 <= j < n)%Z).
  { subst j. destruct (Z.ltb_spec i 0); lia. }
  replace (j <? 0)%Z with false by (symmetry; apply Z.ltb_ge; lia).
  replace (n <=? j)%Z with false by (symmetry; apply Z.leb_gt; lia).
  cbn [orb].
  destruct (nth_error l (Z.to_nat j)) as [x|] eqn:E; [now exists x|].
  apply nth_error_None in E. lia.
Qed.

Lemma getitem_out_of_range {A} (l : list A) (i : Z) :
  (i < - Z.of_nat (List.length l) \/ Z.of_nat (List.length l) <= i)%Z ->
  getitem l i = raise (IndexError "list index out of range").
Proof.
  intros Hi. unfold getitem.
  set (n := Z.of_nat (List.length l)) in *.
  destruct (Z.ltb_spec i 0) as [Hneg|Hpos].
  - replace (i + n <? 0)%Z with true by (symmetry; apply Z.ltb_lt; lia).
    reflexivity.
  - replace (i <? 0)%Z with false by (symmetry; apply Z.ltb_ge; lia).
    replace (n <=? i)%Z with true by (symmetry; apply Z.leb_le; lia).
    reflexivity.
Qed.

Lemma getitem_total {A} (l : list A) (i : Z) :
  (exists x, getitem l i = ok x) \/
  getitem l i = raise (IndexError "list index out of range").
Proof.
  destruct (Z_lt_dec i (- Z.of_nat (List.length l))) as [H1|H1].
  - right; apply getitem_out_of_range; lia.
  - destruct (Z_le_dec (Z.of_nat (List.length l)) i) as [H2|H2].
    + right; apply getitem_out_of_range; lia.
    + left. destruct (getitem_in_range l i) as (x & Hx & _); [lia | eauto].
Qed.

(** The comprehension of line 61 on positions Python accepts. *)
Lemma for_each_getitem_in_range (documents : list string) (idx : list Z) :
  Forall (fun i => (- Z.of_nat (List.length documents) <= i
                    < Z.of_nat (List.length documents))%Z) idx ->
  exists docs,
    for_each (getitem documents) idx = ok docs /\
    Forall2 (fun i d =>
               nth_error documents (offset (List.length documents) i) = Some d)
            idx docs.
Proof.
  induction 1 as [|i idx Hi _ IH]; simpl.
  - exists []. split; [reflexivity | constructor].
  - destruct (getitem_in_range documents i Hi) as (x & -> & Hx).
    destruct IH as (docs & -> & Hdocs).
    exists (x :: docs). split; [reflexivity | now constructor].
Qed.

(** The comprehension of line 61 when some position is one Python rejects. *)
Lemma for_each_getitem_out_of_range (documents : list string) (idx : list Z) :
  Exists (fun i => (i < - Z.of_nat (List.length documents)
                    \/ Z.of_nat (List.length documents) <= i)%Z) idx ->
  for_each (getitem documents) idx
  = raise (IndexError "list index out of range").
Proof.
  induction 1 as [i idx Hi | i idx _ IH]; simpl.
  - now rewrite (getitem_out_of_range documents i Hi).
  - destruct (getitem_total documents i) as [(x & ->) | ->]; [|reflexivity].
    now rewrite IH.
Qed.

Lemma Forall2_length_eq {A B} (R : A -> B -> Prop) (l : list A) (l' : list B) :
  Forall2 R l l' -> List.length l = List.length l'.
Proof. induction 1; simpl; congruence. Qed.

(** [search] is the query of the index followed by the collection. *)
Lemma search_eq (query : string) (documents : list string) (top_k : Z)
                (s : state) :
  search query documents top_k s =
  match search_query query documents top_k s with
  | (inr found, s') => search_collect documents found s'
  | (inl e, s') => (inl e, s')
  end.
Proof. reflexivity. Qed.

Lemma search_collect_ok (documents docs : list string) (found : Found)
                        (s : state) :
  for_each (getitem documents) (indices found) = ok docs ->
  fst (search_collect documents found s) = ok docs.
Proof.
  intros H. unfold search_collect, bind, lift. rewrite H. reflexivity.
Qed.

Lemma search_collect_raise (documents : list string) (found : Found)
                           (s : state) (e : exn) :
  for_each (getitem documents) (indices found) = raise e ->
  search_collect documents found s = (raise e, s).
Proof.
  intros H. unfold search_collect, bind, lift. rewrite H. reflexivity.
Qed.

Lemma get_embedding_run (content : list string) (s : state) :
  get_embedding content s =
  match Self.model (self s) with
  | None =>
      (raise (AttributeError "'OpenAIAug' object has no attribute 'model'"), s)
  | Some model =>
      (match create model (trace s) content (Self.model_name (self s)) with
       | inl e => inl e
       | inr response =>
           match getitem response 0 with
           | inl e => inl e
           | inr first => reshape (array first) [1%nat; size (array first)]
           end
       end,
       record (embeddings_create content (Self.model_name (self s))) s)
  end.
Proof.
  unfold get_embedding, bind, get, call, lift, throw.
  destruct (Self.model (self s)) as [model|]; [|reflexivity].
  destruct (create model _ _ _) as [e|response]; [reflexivity|].
  destruct (getitem response 0); reflexivity.
Qed.

Ltac case_result x :=
  lazymatch goal with
  | |- match ?r with _ => _ end = _ -> _ =>
      destruct r as [?|x]; [intros [=]|]
  end.

(** What a run of lines 50-59 that reaches line 60 has done: the index was
    attached, the provider was asked twice, the index was filled and then
    queried with the resolved [top_k]; the object itself is as before. *)
Lemma search_query_ok (query : string) (documents : list string) (top_k : Z)
                      (s : state) (found : Found) :
  fst (search_query query documents top_k s) = ok found ->
  used_top_k found
  = resolve_top_k top_k (Self.top_k (self s)) default_top_k /\
  self (snd (search_query query documents top_k s)) = self s /\
  exists db document_encoded,
    attached_db (self s) = Some db /\
    trace (snd (search_query query documents top_k s))
    = trace s ++ [embeddings_create documents (Self.model_name (self s));
                  embeddings_create [query] (Self.model_name (self s));
                  db_embed document_encoded;
                  db_search (query_encoded found) (used_top_k found)].
Proof.
  destruct (search_query query documents top_k s) as [r s'] eqn:E.
  cbn [fst snd]. intros ->. revert E.
  unfold search_query. unfold bind at 1, get at 1.
  destruct (attached_db (self s)) as [db|]; [|intros [=]].
  unfold bind at 1. rewrite get_embedding_run.
  destruct (Self.model (self s)) as [client|] eqn:Hm; [|intros [=]].
  case_result de.
  unfold bind at 1. rewrite get_embedding_run. cbn [self record trace].
  rewrite Hm.
  case_result qe.
  unfold bind, call, ret. cbn [self record trace].
  destruct (embed db _ de) as [e|[]]; [intros [=]|].
  destruct (search_index db _ qe _) as [e|[sc idx]]; [intros [=]|].
  intros [= <- <-]. cbn [used_top_k query_encoded self trace record].
  repeat split. exists db, de. split; [reflexivity|].
  now rewrite <- !app_assoc.
Qed.

Lemma Forall2_refine {A B} (P : A -> Prop) (R R' : A -> B -> Prop)
                     (l : list A) (l' : list B) :
  (forall x y, P x -> R x y -> R' x y) ->
  Forall P l -> Forall2 R l l' -> Forall2 R' l l'.
Proof.
  intros Himp HP HR; induction HR as [|x y l l' Hxy _ IH];
    constructor; inversion HP; subst; auto.
Qed.

Lemma Forall2_right {A B} (Q : B -> Prop) (R : A -> B -> Prop)
                    (l : list A) (l' : list B) :
  (forall x y, R x y -> Q y) -> Forall2 R l l' -> Forall Q l'.
Proof. intros Himp HR; induction HR; constructor; eauto. Qed.

(** C1.  For a non-empty document list and [0 < top_k <= len(documents)],
    when the attached index answers with [top_k] valid positions, [search]
    returns exactly [top_k] strings, each an element of [documents], the
    [j]-th of them being the document at the [j]-th position the index
    returned. *)
Theorem search_returns_documents_in_index_order
    (s : state) (query : string) (documents : list string) (top_k : Z)
    (found : Found) :
  documents <> [] ->
  (0 < top_k <= Z.of_nat (List.length documents))%Z ->
  fst (search_query query documents top_k s) = ok found ->
  List.length (indices found) = Z.to_nat top_k ->
  Forall (fun i => (0 <= i < Z.of_nat (List.length documents))%Z)
         (indices found) ->
  exists retrieved_docs,
    fst (search query documents top_k s) = ok retrieved_docs /\
    List.length retrieved_docs = Z.to_nat top_k /\
    Forall (fun d => In d documents) retrieved_docs /\
    Forall2 (fun i d => nth_error documents (Z.to_nat i) = Some d)
            (indices found) retrieved_docs.
Proof.
  intros _ _ Hfound Hlen Hvalid.
  destruct (for_each_getitem_in_range documents (indices found))
    as (docs & Hdocs & Hnth).
  { eapply List.Forall_impl; [|exact Hvalid]. cbv beta. intros i Hi. lia. }
  assert (Hnth' : Forall2 (fun i d => nth_error documents (Z.to_nat i) = Some d)
                          (indices found) docs).
  { eapply Forall2_refine; [|exact Hvalid|exact Hnth].
    cbv beta. intros i d Hi. unfold offset.
    now replace (i <? 0)%Z with false by (symmetry; apply Z.ltb_ge; lia). }
  exists docs. repeat split.
  - rewrite search_eq.
    destruct (search_query query documents top_k s) as [r s'].
    cbn [fst] in Hfound. subst r. now apply search_collect_ok.
  - rewrite <- Hlen. symmetry. eapply Forall2_length_eq, Hnth'.
  - eapply Forall2_right; [|exact Hnth']. cbv beta.
    intros i d Hd. eapply nth_error_In, Hd.
  - exact Hnth'.
Qed.

Lemma search_returns_documents_in_index_order_witness :
  exists retrieved_docs,
    fst (search "q" ["a"; "b"; "c"] 2
                (Stub.augmenter (Some "sk") (Value (Stub.index [2; 0]%Z))))
    = ok retrieved_docs /\
    List.length retrieved_docs = Z.to_nat 2 /\
    Forall (fun d => In d ["a"; "b"; "c"]) retrieved_docs /\
    Forall2 (fun i d => nth_error ["a"; "b"; "c"] (Z.to_nat i) = Some d)
            [2; 0]%Z retrieved_docs.
Proof.
  apply (search_returns_documents_in_index_order
           (Stub.augmenter (Some "sk") (Value (Stub.index [2; 0]%Z)))
           "q" ["a"; "b"; "c"] 2
           {| query_encoded := {| shape := [1; 2]%nat;
                                  data := [0.5%float; 0.25%float] |};
              used_top_k := 2;
              scores := [1%float; 1%float];
              indices := [2; 0]%Z |}).
  - discriminate.
  - simpl; lia.
  - reflexivity.
  - reflexivity.
  - repeat constructor; simpl; lia.
Defined.

(** A run of lines 50-59 on collaborators that answer: an attached index, a
    client whose two responses hold data, and a [db.embed] that returns.
    The index is then queried, with the resolved [top_k]. *)
Lemma search_query_reaches_index
    (s : state) (query : string) (documents : list string) (top_k : Z)
    (db : VectorDB) (client : Client)
    (first1 first2 : list float) (rest1 rest2 : list (list float)) :
  Self.db (self s) = Value db -> truth db = true ->
  Self.model (self s) = Some client ->
  let name := Self.model_name (self s) in
  let ev1 := embeddings_create documents name in
  let ev2 := embeddings_create [query] name in
  let k := resolve_top_k top_k (Self.top_k (self s)) default_top_k in
  create client (trace s) documents name = ok (first1 :: rest1) ->
  create client (trace s ++ [ev1]) [query] name = ok (first2 :: rest2) ->
  embed db (trace s ++ [ev1; ev2]) (Notions.row first1) = ok tt ->
  let asked := trace s ++ [ev1; ev2; db_embed (Notions.row first1)] in
  search_query query documents top_k s
  = (match search_index db asked (Notions.row first2) k with
     | inl e => raise e
     | inr found =>
         ok {| query_encoded := Notions.row first2; used_top_k := k;
               scores := fst found; indices := snd found |}
     end,
     {| self := self s;
        openai_api_key := openai_api_key s;
        trace := asked ++ [db_search (Notions.row first2) k] |}).
Proof.
  cbv zeta. intros Hdb Htruth Hmodel Hdocs Hquery Hembed.
  assert (Hrow : forall first rest,
             match getitem (first :: rest) 0 with
             | inl e => raise e
             | inr x => reshape (array x) [1%nat; size (array x)]
             end = ok (Notions.row first)).
  { intros first rest.
    change (getitem (first :: rest) 0) with (ok first : result (list float)).
    cbv beta iota. unfold reshape, size, array, Notions.row.
    cbn [shape data fold_right].
    rewrite !Nat.mul_1_r, ?Nat.mul_1_l, Nat.eqb_refl. reflexivity. }
  unfold search_query. unfold bind at 1, get at 1.
  unfold attached_db. rewrite Hdb, Htruth.
  unfold bind at 1. rewrite get_embedding_run, Hmodel, Hdocs, Hrow.
  unfold bind at 1. rewrite get_embedding_run. cbn [self record trace].
  rewrite Hmodel, Hquery, Hrow.
  unfold bind, call, ret. cbn [self record trace openai_api_key].
  rewrite <- ?app_assoc. cbn [app]. rewrite Hembed.
  rewrite <- ?app_assoc. cbn [app].
  destruct (search_index db _ _ _) as [e|[sc idx]];
    unfold record; cbn; rewrite <- ?app_assoc; reflexivity.
Qed.

(** C2.  The cascade of line 56: the explicit argument, then the
    instance-level [top_k], then the component default 2, then 1; the first
    nonzero value wins.  With argument 0 and no instance value the result is
    2; with argument 5 it is 5 whatever the other settings.  [search] uses
    the value so resolved: whenever the index is attached, the provider
    answers both requests with data and [db.embed] returns, [search] calls
    [db.search] with that value as [top_k], returns the documents at the
    positions that call yields, and logs the value under
    ["search_params"]; and every run in which the index answers has
    queried it with that value. *)
Theorem search_resolves_top_k_by_cascade :
  (forall top_k self_top_k default_k,
     top_k <> 0%Z -> resolve_top_k top_k self_top_k default_k = top_k) /\
  (forall k default_k,
     k <> 0%Z -> resolve_top_k 0 (Some k) default_k = k) /\
  (forall self_top_k default_k,
     self_top_k = None \/ self_top_k = Some 0%Z -> default_k <> 0%Z ->
     resolve_top_k 0 self_top_k default_k = default_k) /\
  (forall self_top_k,
     self_top_k = None \/ self_top_k = Some 0%Z ->
     resolve_top_k 0 self_top_k 0 = 1%Z) /\
  default_top_k = 2%Z /\
  resolve_top_k 0 None default_top_k = 2%Z /\
  (forall self_top_k default_k, resolve_top_k 5 self_top_k default_k = 5%Z) /\
  (forall s query documents top_k found,
     fst (search_query query documents top_k s) = ok found ->
     used_top_k found
     = resolve_top_k top_k (Self.top_k (self s)) default_top_k /\
     (exists earlier,
        trace (snd (search_query query documents top_k s))
        = earlier ++ [db_search (query_encoded found) (used_top_k found)]) /\
     forall retrieved_docs,
       fst (search query documents top_k s) = ok retrieved_docs ->
       Self.logs (self (snd (search query documents top_k s)))
         !! "search_params"
       = Some (LogSearchParams
                 (query_encoded found)
                 (resolve_top_k top_k (Self.top_k (self s)) default_top_k))) /\
  (forall s query documents top_k db client first1 rest1 first2 rest2,
     Self.db (self s) = Value db -> truth db = true ->
     Self.model (self s) = Some client ->
     let name := Self.model_name (self s) in
     let ev1 := embeddings_create documents name in
     let ev2 := embeddings_create [query] name in
     let k := resolve_top_k top_k (Self.top_k (self s)) default_top_k in
     create client (trace s) documents name = ok (first1 :: rest1) ->
     create client (trace s ++ [ev1]) [query] name = ok (first2 :: rest2) ->
     embed db (trace s ++ [ev1; ev2]) (Notions.row first1) = ok tt ->
     let asked := trace s ++ [ev1; ev2; db_embed (Notions.row first1)] in
     trace (snd (search query documents top_k s))
     = asked ++ [db_search (Notions.row first2) k] /\
     fst (search query documents top_k s)
     = match search_index db asked (Notions.row first2) k with
       | inl e => raise e
       | inr found => for_each (getitem documents) (snd found)
       end /\
     forall retrieved_docs,
       fst (search query documents top_k s) = ok retrieved_docs ->
       Self.logs (self (snd (search query documents top_k s)))
         !! "search_params"
       = Some (LogSearchParams (Notions.row first2) k)).
Proof.
  repeat match goal with |- _ /\ _ => split end; try reflexivity.
  - intros top_k self_top_k default_k Hk. unfold resolve_top_k, truthy_int.
    now destruct (Z.eqb_spec top_k 0).
  - intros k default_k Hk. unfold resolve_top_k, truthy_opt_int, truthy_int.
    cbn. now destruct (Z.eqb_spec k 0).
  - intros self_top_k default_k Hself Hd.
    unfold resolve_top_k, truthy_int. cbn.
    destruct Hself as [-> | ->]; cbn; now destruct (Z.eqb_spec default_k 0).
  - intros self_top_k [-> | ->]; reflexivity.
  - intros s query documents top_k found Hfound.
    destruct (search_query_ok _ _ _ _ _ Hfound)
      as (Hk & Hself & db & de & _ & Htrace).
    split; [exact Hk|]. split.
    + rewrite Htrace. eexists (trace s ++ [_; _; _]).
      now rewrite <- app_assoc.
    + intros docs. rewrite search_eq.
      destruct (search_query query documents top_k s) as [r s'].
      cbn [fst snd] in *. subst r.
      unfold search_collect, bind, lift.
      destruct (for_each (getitem documents) (indices found));
        [intros [=]|].
      intros _. cbn. rewrite Hk. apply lookup_insert_eq.
  - intros s query documents top_k db client first1 rest1 first2 rest2
           Hdb Htruth Hmodel name ev1 ev2 k Hdocs Hquery Hembed asked.
    rewrite search_eq.
    rewrite (search_query_reaches_index s query documents top_k db client
               first1 first2 rest1 rest2 Hdb Htruth Hmodel Hdocs Hquery
               Hembed).
    fold name ev1 ev2 k asked.
    destruct (search_index db asked (Notions.row first2) k)
      as [e|[sc idx]]; [repeat split; intros docs [=]|].
    unfold search_collect, bind, lift, set_log, set_self, modify, ret.
    cbn [snd indices].
    destruct (for_each (getitem documents) idx) as [e|docs];
      [repeat split; intros docs [=]|].
    cbn. repeat split. intros _ _. apply lookup_insert_eq.
Qed.

Lemma search_resolves_top_k_by_cascade_witness :
  let unset := Stub.augmenter (Some "sk") (Value (Stub.index [1%Z])) in
  let three := Faulty.augmenter (Some Stub.client)
                                (Value (Stub.index [1%Z])) ∅ in
  (trace (snd (search "q" ["a"; "b"] 0 unset))
   = [embeddings_create ["a"; "b"] "text-embedding-3-small";
      embeddings_create ["q"] "text-embedding-3-small";
      db_embed (Notions.row [0.5%float; 0.25%float]);
      db_search (Notions.row [0.5%float; 0.25%float]) 2] /\
   fst (search "q" ["a"; "b"] 0 unset) = ok ["b"]) /\
  (trace (snd (search "q" ["a"; "b"] 5 three))
   = [embeddings_create ["a"; "b"] "";
      embeddings_create ["q"] "";
      db_embed (Notions.row [0.5%float; 0.25%float]);
      db_search (Notions.row [0.5%float; 0.25%float]) 5] /\
   fst (search "q" ["a"; "b"] 5 three) = ok ["b"]).
Proof.
  destruct search_resolves_top_k_by_cascade
    as (_ & _ & _ & _ & _ & _ & _ & _ & Hsearch).
  cbv zeta. split.
  - destruct (Hsearch
                (Stub.augmenter (Some "sk") (Value (Stub.index [1%Z])))
                "q" ["a"; "b"] 0%Z (Stub.index [1%Z]) Stub.client
                [0.5%float; 0.25%float] [[1%float; 0%float]]
                [0.5%float; 0.25%float] []
                eq_refl eq_refl eq_refl eq_refl eq_refl eq_refl)
      as (Htrace & Hresult & _).
    split; [exact Htrace | exact Hresult].
  - destruct (Hsearch
                (Faulty.augmenter (Some Stub.client)
                                  (Value (Stub.index [1%Z])) ∅)
                "q" ["a"; "b"] 5%Z (Stub.index [1%Z]) Stub.client
                [0.5%float; 0.25%float] [[1%float; 0%float]]
                [0.5%float; 0.25%float] []
                eq_refl eq_refl eq_refl eq_refl eq_refl eq_refl)
      as (Htrace & Hresult & _).
    split; [exact Htrace | exact Hresult].
Defined.

(** C4.  Without a vector index attached (no attribute [db], [None], or an
    object that is falsy), [search] raises the exception of line 51, the
    spec's [UninitializedIndexError], and the state is the one it started
    from: no call to the embedding provider was made. *)
Theorem search_without_index_raises_before_any_call
    (s : state) (query : string) (documents : list string) (top_k : Z) :
  Self.db (self s) = Missing \/ Self.db (self s) = IsNone \/
  (exists d, Self.db (self s) = Value d /\ truth d = false) ->
  fst (search query documents top_k s)
  = raise (Exception "Vector database (db) is not initialized.") /\
  trace (snd (search query documents top_k s)) = trace s /\
  snd (search query documents top_k s) = s.
Proof.
  intros Hdb.
  assert (Hnone : attached_db (self s) = None).
  { unfold attached_db.
    destruct Hdb as [-> | [-> | (d & -> & ->)]]; reflexivity. }
  unfold search, search_query, bind, get, throw. rewrite Hnone.
  repeat split.
Qed.

Lemma search_without_index_raises_before_any_call_witness :
  fst (search "q" ["a"; "b"] 0 (Stub.augmenter (Some "sk") IsNone))
  = raise (Exception "Vector database (db) is not initialized.") /\
  trace (snd (search "q" ["a"; "b"] 0 (Stub.augmenter (Some "sk") IsNone)))
  = [] /\
  snd (search "q" ["a"; "b"] 0 (Stub.augmenter (Some "sk") IsNone))
  = Stub.augmenter (Some "sk") IsNone.
Proof.
  apply (search_without_index_raises_before_any_call
           (Stub.augmenter (Some "sk") IsNone) "q" ["a"; "b"] 0).
  right; left; reflexivity.
Defined.

(** C7, as stated, fails: the index answers with the position [-1], which
    is no offset into a corpus of two documents, and [search] raises
    nothing; it returns the last document. *)
Lemma search_accepts_position_minus_one :
  let s := Stub.augmenter (Some "sk") (Value (Stub.index [-1]%Z)) in
  (exists found,
     fst (search_query "q" ["a"; "b"] 1 s) = ok found /\
     indices found = [-1]%Z) /\
  ~ (0 <= -1 < Z.of_nat (List.length ["a"; "b"]))%Z /\
  fst (search "q" ["a"; "b"] 1 s) = ok ["b"].
Proof.
  cbv zeta. split; [|split].
  - eexists. split; reflexivity.
  - simpl; lia.
  - reflexivity.
Qed.

(** C7, amended.  When the index answers with some position [i] such that
    [i >= len(documents)] or [i < -len(documents)], [search] raises the
    [IndexError] of the list access, the spec's [RetrievalIndexError]; the
    position is neither truncated nor wrapped, and the log is left as it
    was. *)
Theorem search_raises_on_position_beyond_corpus
    (s : state) (query : string) (documents : list string) (top_k : Z)
    (found : Found) :
  fst (search_query query documents top_k s) = ok found ->
  Exists (fun i => (i < - Z.of_nat (List.length documents)
                    \/ Z.of_nat (List.length documents) <= i)%Z)
         (indices found) ->
  fst (search query documents top_k s)
  = raise (IndexError "list index out of range") /\
  Self.logs (self (snd (search query documents top_k s)))
  = Self.logs (self s).
Proof.
  intros Hfound Hbad.
  destruct (search_query_ok _ _ _ _ _ Hfound) as (_ & Hself & _).
  rewrite search_eq.
  destruct (search_query query documents top_k s) as [r s'].
  cbn [fst snd] in *. subst r.
  rewrite (search_collect_raise documents found s' _
             (for_each_getitem_out_of_range _ _ Hbad)).
  cbn [fst snd]. now rewrite Hself.
Qed.

Lemma search_raises_on_position_beyond_corpus_witness :
  fst (search "q" ["a"; "b"] 2
              (Stub.augmenter (Some "sk") (Value (Stub.index [0; 2]%Z))))
  = raise (IndexError "list index out of range") /\
  Self.logs (self (snd (search "q" ["a"; "b"] 2
              (Stub.augmenter (Some "sk") (Value (Stub.index [0; 2]%Z))))))
  = Self.logs (self (Stub.augmenter (Some "sk")
                                    (Value (Stub.index [0; 2]%Z)))).
Proof.
  apply (search_raises_on_position_beyond_corpus
           (Stub.augmenter (Some "sk") (Value (Stub.index [0; 2]%Z)))
           "q" ["a"; "b"] 2
           {| query_encoded := {| shape := [1; 2]%nat;
                                  data := [0.5%float; 0.25%float] |};
              used_top_k := 2;
              scores := [1%float; 1%float];
              indices := [0; 2]%Z |}).
  - reflexivity.
  - apply Exists_cons_tl, Exists_cons_hd. simpl; lia.
Defined.

(** C8.  For a non-empty list of texts, [get_embedding] sends the whole
    list to the provider and returns the embedding of the first entry of
    the response, as an array of shape [(1, size)]; the entries [rest] for
    the other texts do not reach the result. *)
Theorem get_embedding_returns_first_embedding_only
    (s : state) (content : list string) (model : Client)
    (first : list float) (rest : list (list float)) :
  content <> [] ->
  Self.model (self s) = Some model ->
  create model (trace s) content (Self.model_name (self s))
  = ok (first :: rest) ->
  fst (get_embedding content s)
  = ok {| shape := [1%nat; List.length first]; data := first |} /\
  trace (snd (get_embedding content s))
  = trace s ++ [embeddings_create content (Self.model_name (self s))].
Proof.
  intros _ Hmodel Hcreate.
  rewrite get_embedding_run, Hmodel, Hcreate. cbn [fst snd record trace].
  split; [|reflexivity].
  change (getitem (first :: rest) 0) with (ok first : result (list float)).
  cbv beta iota. unfold reshape, size, array. cbn [shape data fold_right].
  rewrite !Nat.mul_1_r, ?Nat.mul_1_l, Nat.eqb_refl. reflexivity.
Qed.

Lemma get_embedding_returns_first_embedding_only_witness :
  fst (get_embedding ["a"; "b"; "c"]
                     (Stub.augmenter (Some "sk") IsNone))
  = ok {| shape := [1%nat; List.length [0.5%float; 0.25%float]];
          data := [0.5%float; 0.25%float] |} /\
  trace (snd (get_embedding ["a"; "b"; "c"]
                            (Stub.augmenter (Some "sk") IsNone)))
  = [] ++ [embeddings_create ["a"; "b"; "c"] "text-embedding-3-small"].
Proof.
  apply (get_embedding_returns_first_embedding_only
           (Stub.augmenter (Some "sk") IsNone) ["a"; "b"; "c"] Stub.client
           [0.5%float; 0.25%float]
           [[1%float; 0%float]; [1%float; 0%float]]).
  - discriminate.
  - reflexivity.
  - reflexivity.
Defined.



End OpenAIAugSpec.

(** ** Properties of [LlamaGen] *)

Module LlamaGenSpec.

Import Py Eff LlamaGen PyFacts.

Local Open Scope string_scope.
Local Arguments String.append : simpl nomatch.

(** ** The marker of [LlamaGen.generate]

    No proper suffix of the marker is a prefix of it: its first letter
    occurs nowhere else in it.  Two occurrences therefore never overlap. *)

Lemma marker_no_overlap (pre post : string) (i : nat) :
  (i < String.length pre)%nat ->
  startswith (drop i (pre ++ marker ++ post)) marker = true ->
  (i + String.length marker <= String.length pre)%nat.
Proof.
  intros Hi Hstart.
  destruct (le_lt_dec (i + String.length marker) (String.length pre))
    as [Hle|Hlt]; [exact Hle | exfalso].
  set (j := (String.length pre - i)%nat).
  assert (Hj : (1 <= j < String.length marker)%nat) by (subst j; lia).
  pose proof (startswith_get _ _ j Hstart (proj2 Hj)) as Hget.
  rewrite get_drop in Hget.
  replace (i + j)%nat with (String.length pre + 0)%nat in Hget by (subst j; lia).
  rewrite <- get_drop, drop_length_append in Hget.
  change (String.get 0 (marker ++ post)) with (Some "A"%char) in Hget.
  clearbody j. simpl in Hj.
  do 7 (destruct j as [|j]; [try lia; try discriminate Hget|]).
  lia.
Qed.

(** The last piece of the split is what follows the last marker. *)
Lemma split_max_last (n : nat) (pre post : string) :
  (String.length (pre ++ marker ++ post) <= n)%nat ->
  ~ occurs marker post ->
  getitem (split_max n (pre ++ marker ++ post) marker) (-1) = ok post.
Proof.
  revert pre; induction n as [|n IH]; intros pre Hn Hlast.
  - rewrite !length_append in Hn; simpl in Hn; lia.
  - cbn [split_max].
    destruct (occurs_find pre marker post) as (i & -> & Hi & Hstart).
    destruct (split_max_cons n (drop (i + String.length marker)
                                     (pre ++ marker ++ post)) marker)
      as (piece & pieces & Hsplit).
    rewrite Hsplit, getitem_last_cons, <- Hsplit.
    destruct (Nat.eq_dec i (String.length pre)) as [->|Hne].
    + rewrite drop_add, drop_length_append.
      change (drop (String.length marker) (marker ++ post)) with post.
      now rewrite split_max_absent.
    + assert (Hlt : (i < String.length pre)%nat) by lia.
      pose proof (marker_no_overlap pre post i Hlt Hstart) as Hfit.
      rewrite drop_append_le by exact Hfit.
      apply IH; [|exact Hlast].
      rewrite !length_append, length_drop in *. simpl in *. lia.
Qed.

Local Close Scope string_scope.

(** Lines 78-80 on a response whose first dict holds the generated text. *)
Lemma extract_answer_text (d : gmap string string)
                          (rest : list (gmap string string)) (text : string) :
  d !! "generated_text" = Some text ->
  extract_answer (d :: rest)
  = match getitem (split_max (String.length text) text marker) (-1) with
    | inl e => raise e
    | inr piece => ok (strip piece)
    end.
Proof.
  intros Hd. unfold extract_answer.
  change (getitem (d :: rest) 0) with (ok d : result (gmap string string)).
  cbv beta iota. rewrite Hd. reflexivity.
Qed.

Lemma extract_answer_absent (d : gmap string string)
                            (rest : list (gmap string string)) (text : string) :
  d !! "generated_text" = Some text ->
  ~ occurs marker text ->
  extract_answer (d :: rest) = ok (strip text).
Proof.
  intros Hd Habsent. rewrite (extract_answer_text d rest text Hd).
  now rewrite split_max_absent.
Qed.

Lemma extract_answer_last (d : gmap string string)
                          (rest : list (gmap string string))
                          (pre post : string) :
  d !! "generated_text" = Some (pre ++ marker ++ post)%string ->
  ~ occurs marker post ->
  extract_answer (d :: rest) = ok (strip post).
Proof.
  intros Hd Hlast. rewrite (extract_answer_text d rest _ Hd).
  now rewrite (split_max_last _ pre post (le_n _) Hlast).
Qed.

Section Generator.

Variable CausalLM : Type.
Variable AutoTokenizer :
  list event -> string -> option string -> result Tokenizer.
Variable AutoModelForCausalLM :
  list event -> string -> option string -> torch_dtype -> result CausalLM.
Variable pipeline :
  list event -> string -> CausalLM -> Tokenizer -> Z -> result Pipeline.
Variable detect : list event -> string -> result string.
Variable format : string -> string -> string -> result string.

Local Abbreviation St := (state CausalLM).
Local Abbreviation generate := (generate CausalLM detect format).
Local Abbreviation _validate := (_validate CausalLM).
Local Abbreviation _setup :=
  (_setup CausalLM AutoTokenizer AutoModelForCausalLM pipeline).
Local Abbreviation setup :=
  (setup CausalLM AutoTokenizer AutoModelForCausalLM pipeline).

Ltac run_generate :=
  unfold LlamaGen.generate, set_lang_code, set_log, set_self, call,
         bind, get, lift, throw, ret, modify.

(** A run of [generate] that gets a language from the detector: the hint
    goes to the tokenizer, the pipeline is called once, and the value
    returned is computed from its response by lines 78-80. *)
Lemma generate_run
    (s : St) (query : string) (context : list string)
    (input_text detected : string) (tok : Tokenizer) (g : Pipeline) :
  format (Self.prompt_template (self s)) query (join " " context)
  = ok input_text ->
  detect (trace s) query = ok detected ->
  Self.tokenizer (self s) = Some tok ->
  Self.generator (self s) = Some g ->
  let language := if truthy_str detected then detected else "en" in
  let tok' := {| lang_code := Some language;
                 eos_token_id := eos_token_id tok |} in
  let params := model_params CausalLM (self s) input_text tok' in
  fst (generate query context s)
  = match run g (trace s ++ [detect_call query]) tok' params with
    | inl e => raise e
    | inr response => extract_answer response
    end /\
  Self.tokenizer (self (snd (generate query context s))) = Some tok' /\
  trace (snd (generate query context s))
  = trace s ++ [detect_call query; generator_call params].
Proof.
  intros Hformat Hdetect Htok Hgen.
  run_generate. rewrite Hformat, Hdetect. cbn [self trace record].
  rewrite Htok. cbn [self trace record Self.generator Self.tokenizer].
  rewrite Hgen. cbn [self trace record].
  unfold str.
  destruct (run g _ _ _); cbn; rewrite <- app_assoc; repeat split.
Qed.

Lemma generate_detect_raises
    (s : St) (query : string) (context : list string)
    (input_text : string) (e : exn) :
  format (Self.prompt_template (self s)) query (join " " context)
  = ok input_text ->
  detect (trace s) query = raise e ->
  generate query context s = (raise e, record CausalLM (detect_call query) s).
Proof.
  intros Hformat Hdetect.
  run_generate. rewrite Hformat, Hdetect. reflexivity.
Qed.

(** C3.  [generate] returns what follows the last occurrence of the marker
    ["Answer:"] in the generated text, stripped of surrounding whitespace,
    and the whole text, stripped, when the marker does not occur; the three
    texts of the spec give ["Paris"], ["Paris is the capital"] and ["B"]. *)
Theorem generate_returns_text_after_last_marker :
  (forall (s : St) query context input_text detected tok g d rest text,
     format (Self.prompt_template (self s)) query (join " " context)
     = ok input_text ->
     detect (trace s) query = ok detected ->
     Self.tokenizer (self s) = Some tok ->
     Self.generator (self s) = Some g ->
     run g (trace s ++ [detect_call query])
         {| lang_code := Some (if truthy_str detected then detected else "en");
            eos_token_id := eos_token_id tok |}
         (model_params CausalLM (self s) input_text
            {| lang_code :=
                 Some (if truthy_str detected then detected else "en");
               eos_token_id := eos_token_id tok |})
     = ok (d :: rest) ->
     d !! "generated_text" = Some text ->
     (~ occurs marker text ->
      fst (generate query context s) = ok (strip text)) /\
     (forall pre post,
        text = (pre ++ marker ++ post)%string -> ~ occurs marker post ->
        fst (generate query context s) = ok (strip post))) /\
  (forall (d : gmap string string) rest text,
     d !! "generated_text" = Some text ->
     (~ occurs marker text -> extract_answer (d :: rest) = ok (strip text)) /\
     (forall pre post,
        text = (pre ++ marker ++ post)%string -> ~ occurs marker post ->
        extract_answer (d :: rest) = ok (strip post))) /\
  extract_answer [ {[ "generated_text" := "context... Answer: Paris" ]} ]
  = ok "Paris" /\
  extract_answer [ {[ "generated_text" := "Paris is the capital" ]} ]
  = ok "Paris is the capital" /\
  extract_answer [ {[ "generated_text" := "Answer: A Answer: B" ]} ]
  = ok "B".
Proof.
  assert (Hextract : forall (d : gmap string string) rest text,
     d !! "generated_text" = Some text ->
     (~ occurs marker text -> extract_answer (d :: rest) = ok (strip text)) /\
     (forall pre post,
        text = (pre ++ marker ++ post)%string -> ~ occurs marker post ->
        extract_answer (d :: rest) = ok (strip post))).
  { intros d rest text Hd. split.
    - now apply extract_answer_absent.
    - intros pre post -> Hlast.
      exact (extract_answer_last d rest pre post Hd Hlast). }
  split; [|split; [exact Hextract|]].
  - intros s query context input_text detected tok g d rest text
           Hformat Hdetect Htok Hgen Hrun Hd.
    destruct (generate_run s query context input_text detected tok g
                Hformat Hdetect Htok Hgen) as (Hfst & _).
    cbv zeta in Hfst. rewrite Hrun in Hfst. rewrite Hfst.
    exact (Hextract d rest text Hd).
  - repeat split; vm_compute; reflexivity.
Qed.

(** Lines 58-59 when the detector returns the empty string: the
    tokenizer's language hint is set to ["en"] and the pipeline is called;
    [generate] returns what lines 78-80 make of its response. *)
Lemma generate_defaults_language_on_empty_detection
    (s : St) (query : string) (context : list string) (input_text : string)
    (tok : Tokenizer) (g : Pipeline) :
  format (Self.prompt_template (self s)) query (join " " context)
  = ok input_text ->
  Self.tokenizer (self s) = Some tok ->
  Self.generator (self s) = Some g ->
  detect (trace s) query = ok "" ->
  let tok' := {| lang_code := Some "en";
                 eos_token_id := eos_token_id tok |} in
  let params := model_params CausalLM (self s) input_text tok' in
  Self.tokenizer (self (snd (generate query context s))) = Some tok' /\
  trace (snd (generate query context s))
  = trace s ++ [detect_call query; generator_call params] /\
  fst (generate query context s)
  = match run g (trace s ++ [detect_call query]) tok' params with
    | inl e => raise e
    | inr response => extract_answer response
    end.
Proof.
  intros Hformat Htok Hgen Hdetect.
  destruct (generate_run s query context input_text "" tok g
              Hformat Hdetect Htok Hgen) as (Hfst & Htok' & Htrace).
  cbv zeta in *. cbn [truthy_str] in *. auto.
Qed.

(** [_validate] never changes the state; its outcome is decided by the
    test of line 24 alone. *)
Lemma validate_run (s : St) :
  _validate s
  = (if startswith (Self.model_name (self s)) "meta-llama/"
     then ok tt
     else raise (Exception ("The given model name "
                            ++ Self.model_name (self s)
                            ++ " is not provided by meta.")),
     s).
Proof.
  unfold LlamaGen._validate, bind, get, throw, ret.
  now destruct (startswith (Self.model_name (self s)) "meta-llama/").
Qed.

(** C9.  [_validate] accepts exactly the model names that start with
    ["meta-llama/"].  For any other name it raises the exception of lines
    25-28, the spec's [ConfigurationError], and setup stops there: nothing
    is loaded and the object is as before. *)
Theorem validate_requires_meta_llama_model_name (s : St) :
  ((exists rest, Self.model_name (self s) = ("meta-llama/" ++ rest)%string) ->
   _validate s = (ok tt, s)) /\
  (~ (exists rest, Self.model_name (self s) = ("meta-llama/" ++ rest)%string) ->
   _validate s
   = (raise (Exception ("The given model name " ++ Self.model_name (self s)
                        ++ " is not provided by meta.")), s) /\
   setup s
   = (raise (Exception ("The given model name " ++ Self.model_name (self s)
                        ++ " is not provided by meta.")), s)).
Proof.
  unfold LlamaGen.setup, bind. rewrite validate_run.
  destruct (startswith (Self.model_name (self s)) "meta-llama/") eqn:E.
  - split; [reflexivity|]. intros Hout. exfalso. apply Hout.
    now apply startswith_iff.
  - split; [|split; reflexivity].
    intros Hin%startswith_iff. congruence.
Qed.

End Generator.

Lemma generate_returns_text_after_last_marker_witness :
  extract_answer [ {[ "generated_text" := "so... Answer: 42 " ]} ] = ok "42".
Proof.
  destruct (generate_returns_text_after_last_marker
              unit Stub.detect_empty Stub.format) as (_ & Hextract & _).
  refine (proj2 (Hextract {[ "generated_text" := "so... Answer: 42 " ]} []
                          "so... Answer: 42 " eq_refl)
                "so... " " 42 " eq_refl _).
  apply find_None_absent. reflexivity.
Defined.

(** C6.  The code at the failing input: on a loaded generator whose
    detector raises for the query, [generate] raises the detector's
    exception at line 58; the tokenizer's hint is not set to ["en"], it stays
    unset, and the pipeline is never called.  The fallback [or 'en'] of
    line 58 covers an empty return value only. *)
Lemma generate_fails_when_detector_raises :
  let s := Stub.llama "meta-llama/Llama-3.2-1B" (Some "hf_token") true in
  let out := generate unit Stub.detect_raises Stub.format "q" ["ctx"] s in
  Stub.detect_raises (trace s) "q"
  = raise (Raised "LangDetectException" "No features in text.") /\
  fst out = raise (Raised "LangDetectException" "No features in text.") /\
  Self.tokenizer (self (snd out))
  = Some {| lang_code := None; eos_token_id := Some 2%Z |} /\
  trace (snd out) = [detect_call "q"].
Proof. cbv zeta. repeat split. Qed.

Lemma generate_defaults_language_on_empty_detection_witness :
  Self.tokenizer
    (self (snd (generate unit Stub.detect_empty Stub.format "q" ["ctx"]
                  (Stub.llama "meta-llama/Llama-3.2-1B" None true))))
  = Some {| lang_code := Some "en"; eos_token_id := Some 2%Z |}.
Proof.
  exact (proj1 (generate_defaults_language_on_empty_detection
                  unit Stub.detect_empty Stub.format
                  (Stub.llama "meta-llama/Llama-3.2-1B" None true)
                  "q" ["ctx"] "q ctx" Stub.tokenizer
                  (Stub.generator "Answer: 42")
                  eq_refl eq_refl eq_refl eq_refl)).
Defined.

Lemma validate_requires_meta_llama_model_name_witness :
  setup unit Stub.AutoTokenizer Stub.AutoModelForCausalLM Stub.pipeline
        (Stub.llama "gpt2" (Some "hf_token") false)
  = (raise (Exception "The given model name gpt2 is not provided by meta."),
     Stub.llama "gpt2" (Some "hf_token") false).
Proof.
  destruct (validate_requires_meta_llama_model_name
              unit Stub.AutoTokenizer Stub.AutoModelForCausalLM Stub.pipeline
              (Stub.llama "gpt2" (Some "hf_token") false)) as (_ & Hout).
  apply Hout. intros Hin%startswith_iff. discriminate Hin.
Defined.

End LlamaGenSpec.

(** ** Setup of the two adapters and the API key *)

Module SetupSpec.

Import Py Eff.

(** C5, as stated, fails for the generator: with a model name of the
    family and an API key that is empty, or absent, neither [_validate] nor
    [_setup] raises; the tokenizer, the model and the pipeline are all
    loaded, the key going to the loaders as the token. *)
Lemma llama_setup_loads_without_api_key :
  let object key := Stub.llama "meta-llama/Llama-3.2-1B" key false in
  let validate key := LlamaGen._validate unit (object key) in
  let load key :=
    LlamaGen._setup unit Stub.AutoTokenizer Stub.AutoModelForCausalLM
                    Stub.pipeline (object key) in
  let run key :=
    LlamaGen.setup unit Stub.AutoTokenizer Stub.AutoModelForCausalLM
                   Stub.pipeline (object key) in
  truthy_opt_str (Some "") = false /\
  truthy_opt_str None = false /\
  fst (validate (Some "")) = ok tt /\
  fst (validate None) = ok tt /\
  fst (load (Some "")) = ok tt /\
  fst (load None) = ok tt /\
  fst (run (Some "")) = ok tt /\
  fst (run None) = ok tt /\
  LlamaGen.trace (snd (run (Some "")))
  = [LlamaGen.AutoTokenizer_from_pretrained "meta-llama/Llama-3.2-1B"
       (Some "");
     LlamaGen.AutoModelForCausalLM_from_pretrained "meta-llama/Llama-3.2-1B"
       (Some "") LlamaGen.float32;
     LlamaGen.pipeline_new "text-generation" (-1)] /\
  LlamaGen.trace (snd (run None))
  = [LlamaGen.AutoTokenizer_from_pretrained "meta-llama/Llama-3.2-1B" None;
     LlamaGen.AutoModelForCausalLM_from_pretrained "meta-llama/Llama-3.2-1B"
       None LlamaGen.float32;
     LlamaGen.pipeline_new "text-generation" (-1)].
Proof. cbv zeta. repeat split. Qed.

Lemma llama_setup_run
    (CausalLM : Type)
    (AutoTokenizer :
       list LlamaGen.event -> string -> option string ->
       result LlamaGen.Tokenizer)
    (AutoModelForCausalLM :
       list LlamaGen.event -> string -> option string ->
       LlamaGen.torch_dtype -> result CausalLM)
    (pipeline :
       list LlamaGen.event -> string -> CausalLM -> LlamaGen.Tokenizer ->
       Z -> result LlamaGen.Pipeline)
    (s : LlamaGen.state CausalLM) :
  exists later,
    LlamaGen.trace
      (snd (LlamaGen._setup CausalLM AutoTokenizer AutoModelForCausalLM
                            pipeline s))
    = LlamaGen.trace s
      ++ LlamaGen.AutoTokenizer_from_pretrained
           (LlamaGen.Self.model_name (LlamaGen.self s))
           (LlamaGen.Self.api_key (LlamaGen.self s)) :: later.
Proof.
  unfold LlamaGen._setup, LlamaGen.call, LlamaGen.set_self,
         bind, get, modify.
  destruct (AutoTokenizer _ _ _) as [e|tok];
    [now exists [] |].
  cbn [LlamaGen.self LlamaGen.trace LlamaGen.record].
  destruct (AutoModelForCausalLM _ _ _ _) as [e|lm].
  - eexists. cbn. now rewrite <- app_assoc.
  - cbn [LlamaGen.self LlamaGen.trace LlamaGen.record].
    destruct (pipeline _ _ _ _ _) as [e|gen];
      eexists; cbn; now rewrite <- !app_assoc.
Qed.

(** C5, amended.  Setup of the augmenter with an empty or absent API key
    raises the [ValueError] of line 30, the spec's [ConfigurationError],
    with the state as it was: no client was built and [openai.api_key] was
    not written.  Setup of the generator never tests the API key: the first
    thing [_setup] does is call the tokenizer loader with the key as it
    stands, and so does setup as a whole once the model name has passed
    [_validate]. *)
Theorem setup_checks_api_key_in_augmenter_only :
  (forall OpenAI (s : OpenAIAug.state),
     OpenAIAug.Self.api_key (OpenAIAug.self s) = None \/
     OpenAIAug.Self.api_key (OpenAIAug.self s) = Some ""%string ->
     OpenAIAug._setup OpenAI s
     = (raise (ValueError "API key for OpenAI is required."), s)) /\
  (forall CausalLM AutoTokenizer AutoModelForCausalLM pipeline
          (s : LlamaGen.state CausalLM),
     (exists later,
        LlamaGen.trace
          (snd (LlamaGen._setup CausalLM AutoTokenizer AutoModelForCausalLM
                                pipeline s))
        = LlamaGen.trace s
          ++ LlamaGen.AutoTokenizer_from_pretrained
               (LlamaGen.Self.model_name (LlamaGen.self s))
               (LlamaGen.Self.api_key (LlamaGen.self s)) :: later) /\
     ((exists rest, LlamaGen.Self.model_name (LlamaGen.self s)
                    = ("meta-llama/" ++ rest)%string) ->
      LlamaGen._validate CausalLM s = (ok tt, s) /\
      exists later,
        LlamaGen.trace
          (snd (LlamaGen.setup CausalLM AutoTokenizer AutoModelForCausalLM
                               pipeline s))
        = LlamaGen.trace s
          ++ LlamaGen.AutoTokenizer_from_pretrained
               (LlamaGen.Self.model_name (LlamaGen.self s))
               (LlamaGen.Self.api_key (LlamaGen.self s)) :: later)).
Proof.
  split.
  - intros OpenAI s Hkey. unfold OpenAIAug._setup, bind, get, throw.
    destruct Hkey as [-> | ->]; reflexivity.
  - intros CausalLM AutoTokenizer AutoModelForCausalLM pipeline s.
    split; [apply llama_setup_run|].
    intros Hfamily%PyFacts.startswith_iff.
    unfold LlamaGen.setup, bind.
    rewrite LlamaGenSpec.validate_run, Hfamily.
    split; [reflexivity | apply llama_setup_run].
Qed.

Lemma setup_checks_api_key_in_augmenter_only_witness :
  OpenAIAug._setup Stub.OpenAI (Stub.augmenter (Some "") OpenAIAug.IsNone)
  = (raise (ValueError "API key for OpenAI is required."),
     Stub.augmenter (Some "") OpenAIAug.IsNone).
Proof.
  apply (proj1 setup_checks_api_key_in_augmenter_only).
  right; reflexivity.
Defined.

End SetupSpec.

(** ** More about the Python built-ins of line 80 of [llama.py] *)

Module PyMore.

Import Py PyFacts Notions.
Local Open Scope string_scope.
Local Arguments String.append : simpl nomatch.

Lemma append_empty_r (s : string) : s ++ "" = s.
Proof. induction s as [|c s IH]; simpl; [reflexivity | now rewrite IH]. Qed.

Lemma append_app_assoc (a b c : string) : (a ++ b) ++ c = a ++ b ++ c.
Proof. induction a as [|x a IH]; simpl; [reflexivity | now rewrite IH]. Qed.

Lemma lstrip_split (s : string) :
  exists l, s = l ++ lstrip s /\ all_space l = true.
Proof.
  induction s as [|c s (l & Hl & Hsp)]; [now exists ""|].
  cbn [lstrip]. destruct (isspace c) eqn:E.
  - exists (String c l). cbn. rewrite E, Hsp. split; [now rewrite <- Hl | reflexivity].
  - now exists "".
Qed.

Lemma rstrip_split (s : string) :
  exists r, s = rstrip s ++ r /\ all_space r = true.
Proof.
  induction s as [|c s (r & Hr & Hsp)]; [now exists ""|].
  cbn [rstrip]. destruct (rstrip s) as [|c' t] eqn:E.
  - destruct (isspace c) eqn:Ec.
    + exists (String c r). simpl in Hr. subst s. cbn. now rewrite Ec, Hsp.
    + exists r. simpl in Hr. now subst s.
  - exists r. split; [|exact Hsp]. cbn. f_equal. exact Hr.
Qed.

(** [strip] only removes whitespace, and only at the two ends. *)
Lemma strip_split (s : string) :
  exists l r, s = l ++ strip s ++ r /\
              all_space l = true /\ all_space r = true.
Proof.
  destruct (lstrip_split s) as (l & Hl & Hlsp).
  destruct (rstrip_split (lstrip s)) as (r & Hr & Hrsp).
  exists l, r. unfold strip. now rewrite <- Hr.
Qed.

Lemma rstrip_cons_keep (c : ascii) (s : string) :
  isspace c = false -> rstrip (String c s) = String c (rstrip s).
Proof. intros Hc. cbn [rstrip]. destruct (rstrip s); now rewrite ?Hc. Qed.

Lemma lstrip_head (s : string) (c : ascii) (t : string) :
  lstrip s = String c t -> isspace c = false.
Proof.
  induction s as [|a s IH]; cbn [lstrip]; [discriminate|].
  destruct (isspace a) eqn:E; [exact IH | now intros [= <- <-]].
Qed.

Lemma rstrip_last (s t : string) (c : ascii) :
  rstrip s = t ++ String c "" -> isspace c = false.
Proof.
  revert t; induction s as [|a s IH]; intros t; cbn [rstrip].
  - destruct t; discriminate.
  - destruct (rstrip s) as [|b u] eqn:E.
    + destruct (isspace a) eqn:Ea; [destruct t; discriminate|].
      destruct t as [|x t]; cbn; [now intros [= <-]|].
      intros [= _ H]. destruct t; discriminate.
    + destruct t as [|x t]; cbn; [discriminate|].
      intros [= _ H]. now apply (IH t).
Qed.

Lemma rstrip_idempotent (s : string) : rstrip (rstrip s) = rstrip s.
Proof.
  induction s as [|a s IH]; [reflexivity|].
  cbn [rstrip]. destruct (rstrip s) as [|b u] eqn:E.
  - destruct (isspace a) eqn:Ea; [reflexivity|].
    cbn [rstrip]. now rewrite Ea.
  - change (rstrip (String a (String b u))
            = String a (String b u)).
    cbn [rstrip]. cbn [rstrip] in IH. 
    destruct (rstrip u) as [|x v] eqn:Eu.
    + destruct (isspace b) eqn:Eb; [discriminate IH|]. now rewrite IH.
    + now rewrite IH.
Qed.

Lemma strip_trimmed (s : string) : trimmed (strip s).
Proof.
  unfold strip. intros c t [H | H].
  - destruct (lstrip s) as [|a u] eqn:E; [discriminate H|].
    pose proof (lstrip_head _ _ _ E) as Ha.
    rewrite (rstrip_cons_keep a u Ha) in H. now inversion H; subst.
  - now apply (rstrip_last (lstrip s) t c).
Qed.

Lemma strip_idempotent (s : string) : strip (strip s) = strip s.
Proof.
  unfold strip. destruct (lstrip s) as [|a u] eqn:E; [reflexivity|].
  pose proof (lstrip_head _ _ _ E) as Ha.
  rewrite (rstrip_cons_keep a u Ha). cbn [lstrip]. rewrite Ha.
  rewrite <- (rstrip_cons_keep a u Ha). apply rstrip_idempotent.
Qed.

Lemma occurs_inside (sub l s r : string) :
  occurs sub s -> occurs sub (l ++ s ++ r).
Proof.
  intros (pre & post & ->). exists (l ++ pre), (post ++ r).
  now rewrite !append_app_assoc.
Qed.

Lemma occurs_dec (sub s : string) : occurs sub s \/ ~ occurs sub s.
Proof.
  destruct (find s sub) as [i|] eqn:F.
  - left. destruct (find_Some _ _ _ F) as [[rest Hrest]%startswith_iff _].
    exists (take i s), rest. now rewrite <- Hrest, take_drop.
  - right. now apply find_None_absent.
Qed.

(** A string that holds [sub] holds a last occurrence of it. *)
Lemma last_occurrence (sub s : string) :
  sub <> "" -> occurs sub s ->
  exists pre post, s = pre ++ sub ++ post /\ ~ occurs sub post.
Proof.
  intros Hsub. remember (String.length s) as n eqn:Hn.
  revert s Hn. induction n as [n IH] using lt_wf_ind.
  intros s Hn (pre & post & ->).
  destruct (occurs_dec sub post) as [Hocc | Hno]; [|now exists pre, post].
  destruct (IH (String.length post)) with (s := post)
    as (pre' & post' & Hpost & Hlast); [|reflexivity|exact Hocc|].
  - subst n. rewrite !length_append.
    destruct sub; [congruence | simpl; lia].
  - exists (pre ++ sub ++ pre'), post'. split; [|exact Hlast].
    rewrite Hpost at 1. now rewrite !append_app_assoc.
Qed.

Lemma concat_cons (sep x : string) (y : string) (l : list string) :
  String.concat sep (x :: y :: l) = x ++ sep ++ String.concat sep (y :: l).
Proof. reflexivity. Qed.

Lemma join_split_max (n : nat) (s sep : string) :
  join sep (split_max n s sep) = s.
Proof.
  unfold join. revert s; induction n as [|n IH]; intros s; [reflexivity|].
  cbn [split_max]. destruct (find s sep) as [i|] eqn:F; [|reflexivity].
  destruct (split_max_cons n (drop (i + String.length sep) s) sep)
    as (y & l & Hsplit).
  rewrite Hsplit, concat_cons, <- Hsplit, IH.
  destruct (find_Some _ _ _ F) as [[rest Hrest]%startswith_iff _].
  rewrite drop_add, Hrest, drop_length_append, <- Hrest. apply take_drop.
Qed.

(** X13.  [s.split(sep)] raises only for the empty separator.  For any
    other one it returns at least one piece, and joining the pieces with the
    separator gives [s] back. *)
Theorem split_then_join_is_identity (s sep : string) :
  sep <> "" ->
  exists piece pieces,
    split s sep = ok (piece :: pieces) /\
    join sep (piece :: pieces) = s.
Proof.
  intros Hsep. unfold split. destruct sep as [|c sep]; [congruence|].
  destruct (split_max_cons (String.length s) s (String c sep))
    as (piece & pieces & Hsplit).
  exists piece, pieces. rewrite Hsplit. split; [reflexivity|].
  rewrite <- Hsplit. apply join_split_max.
Qed.

Lemma split_then_join_is_identity_witness :
  exists piece pieces,
    split "a, b,, c" ", " = ok (piece :: pieces) /\
    join ", " (piece :: pieces) = "a, b,, c".
Proof. apply (split_then_join_is_identity "a, b,, c" ", "). discriminate. Defined.

(** X14.  [s.strip()] removes whitespace only, and only at the two ends:
    [s] is a run of whitespace, then [s.strip()], then a run of whitespace.
    The result neither starts nor ends with whitespace, so stripping it
    again changes nothing. *)
Theorem strip_removes_exactly_the_outer_whitespace (s : string) :
  (exists l r, s = l ++ strip s ++ r /\
               all_space l = true /\ all_space r = true) /\
  trimmed (strip s) /\
  strip (strip s) = strip s.
Proof.
  split; [apply strip_split|].
  split; [apply strip_trimmed | apply strip_idempotent].
Qed.

End PyMore.

(** ** More properties of [OpenAIAug] *)

Module OpenAIAugMore.

Import Py Eff Numpy OpenAIAug PyFacts OpenAIAugSpec Notions.

(** What [get_embedding] computes from a provider answer. *)
Lemma reshape_row (first : list float) :
  reshape (array first) [1%nat; size (array first)]
  = ok {| shape := [1%nat; List.length first]; data := first |}.
Proof.
  unfold reshape, size, array. cbn [shape data fold_right].
  rewrite !Nat.mul_1_r, ?Nat.mul_1_l, Nat.eqb_refl. reflexivity.
Qed.

Lemma getitem_first {A} (l : list A) :
  getitem l 0 = match l with
                | [] => raise (IndexError "list index out of range")
                | x :: _ => ok x
                end.
Proof. destruct l; reflexivity. Qed.

Lemma setup_run (OpenAI : list event -> string -> result Client)
                (s : state) (key : string) :
  Self.api_key (self s) = Some key -> key <> ""%string ->
  _setup OpenAI s
  = (match OpenAI (trace s) key with
     | inl e => raise e
     | inr _ => ok tt
     end,
     {| self :=
          {| Self.api_key := Some key;
             Self.model_name := if truthy_str (Self.model_name (self s))
                                then Self.model_name (self s)
                                else default_model_name;
             Self.model := match OpenAI (trace s) key with
                           | inl _ => Self.model (self s)
                           | inr client => Some client
                           end;
             Self.top_k := Self.top_k (self s);
             Self.db := Self.db (self s);
             Self.logs := Self.logs (self s) |};
        openai_api_key := Some key;
        trace := trace s ++ [OpenAI_new key] |}).
Proof.
  intros Hkey Hne. unfold _setup, set_self, call, bind, get, throw, modify.
  rewrite Hkey. destruct key as [|c key]; [congruence|].
  cbn. rewrite Hkey.
  destruct (OpenAI (trace s) (String c key)); reflexivity.
Qed.

(** X1.  After a [_setup] that got its client, [get_embedding] asks that
    client, under the configured model name, or under
    ["text-embedding-3-small"] when none was configured; [openai.api_key]
    holds the key.  The request either fails with the provider's exception,
    fails with [IndexError] on a response without data, or yields the first
    embedding as one row. *)
Theorem setup_then_get_embedding_uses_resolved_model_name
    (OpenAI : list event -> string -> result Client)
    (s : state) (key : string) (client : Client) (content : list string) :
  Self.api_key (self s) = Some key -> key <> ""%string ->
  OpenAI (trace s) key = ok client ->
  let name := if truthy_str (Self.model_name (self s))
              then Self.model_name (self s) else "text-embedding-3-small" in
  let s1 := snd (_setup OpenAI s) in
  fst (_setup OpenAI s) = ok tt /\
  openai_api_key s1 = Some key /\
  trace (snd (get_embedding content s1))
  = trace s ++ [OpenAI_new key; embeddings_create content name] /\
  fst (get_embedding content s1)
  = match create client (trace s ++ [OpenAI_new key]) content name with
    | inl e => raise e
    | inr [] => raise (IndexError "list index out of range")
    | inr (first :: _) =>
        ok {| shape := [1%nat; List.length first]; data := first |}
    end.
Proof.
  intros Hkey Hne Hclient. cbv zeta.
  rewrite (setup_run OpenAI s key Hkey Hne), Hclient. cbn [fst snd].
  repeat split.
  - rewrite get_embedding_run. cbn. now rewrite <- app_assoc.
  - rewrite get_embedding_run. cbn [fst self trace Self.model Self.model_name].
    destruct (create client _ _ _) as [e|[|first rest]]; try reflexivity.
    rewrite getitem_first. apply reshape_row.
Qed.


(** X2.  When the client constructor raises, [_setup] passes the exception
    on, but [openai.api_key] and the model name have been written already;
    [self.model] is what it was. *)
Theorem setup_keeps_global_key_when_client_fails
    (OpenAI : list event -> string -> result Client)
    (s : state) (key : string) (e : exn) :
  Self.api_key (self s) = Some key -> key <> ""%string ->
  OpenAI (trace s) key = raise e ->
  fst (_setup OpenAI s) = raise e /\
  openai_api_key (snd (_setup OpenAI s)) = Some key /\
  Self.model_name (self (snd (_setup OpenAI s)))
  = (if truthy_str (Self.model_name (self s))
     then Self.model_name (self s) else "text-embedding-3-small") /\
  Self.model (self (snd (_setup OpenAI s))) = Self.model (self s).
Proof.
  intros Hkey Hne Hfail.
  rewrite (setup_run OpenAI s key Hkey Hne), Hfail. repeat split.
Qed.

Lemma get_embedding_frame (content : list string) (s : state) :
  self (snd (get_embedding content s)) = self s /\
  openai_api_key (snd (get_embedding content s)) = openai_api_key s.
Proof.
  rewrite get_embedding_run. destruct (Self.model (self s)); split; reflexivity.
Qed.

(** X3.  [get_embedding] never writes to the object or to
    [openai.api_key].  It makes one provider request, with the whole list
    and the configured model name, when a client exists, and none
    otherwise. *)
Theorem get_embedding_leaves_object_alone
    (content : list string) (s : state) :
  self (snd (get_embedding content s)) = self s /\
  openai_api_key (snd (get_embedding content s)) = openai_api_key s /\
  trace (snd (get_embedding content s))
  = trace s ++ match Self.model (self s) with
               | None => []
               | Some _ =>
                   [embeddings_create content (Self.model_name (self s))]
               end.
Proof.
  rewrite get_embedding_run.
  destruct (Self.model (self s)); cbn; repeat split.
  now rewrite app_nil_r.
Qed.

(** X4.  With a client, [get_embedding] fails in two ways only: with the
    exception the provider raised, and with [IndexError] when the response
    holds no data.  The reshape never fails: any first embedding, the empty
    one included, comes back as an array of shape [(1, len)]. *)
Theorem get_embedding_fails_only_with_provider_or_empty_answer
    (content : list string) (s : state) (client : Client) :
  Self.model (self s) = Some client ->
  fst (get_embedding content s)
  = match create client (trace s) content (Self.model_name (self s)) with
    | inl e => raise e
    | inr [] => raise (IndexError "list index out of range")
    | inr (first :: _) =>
        ok {| shape := [1%nat; List.length first]; data := first |}
    end.
Proof.
  intros Hmodel. rewrite get_embedding_run, Hmodel. cbn [fst].
  destruct (create client _ _ _) as [e|[|first rest]]; try reflexivity.
  rewrite getitem_first. apply reshape_row.
Qed.

(** Every run of lines 50-59, whatever its outcome. *)
Lemma search_query_inv (query : string) (documents : list string) (top_k : Z)
                       (s : state) (found : Found) :
  fst (search_query query documents top_k s) = ok found ->
  exists db client first1 rest1 first2 rest2,
    attached_db (self s) = Some db /\
    Self.model (self s) = Some client /\
    let name := Self.model_name (self s) in
    let k := resolve_top_k top_k (Self.top_k (self s)) default_top_k in
    let ev1 := embeddings_create documents name in
    let ev2 := embeddings_create [query] name in
    create client (trace s) documents name = ok (first1 :: rest1) /\
    create client (trace s ++ [ev1]) [query] name = ok (first2 :: rest2) /\
    embed db (trace s ++ [ev1; ev2]) (row first1) = ok tt /\
    search_index db (trace s ++ [ev1; ev2; db_embed (row first1)])
                 (row first2) k
    = ok (scores found, indices found) /\
    query_encoded found = row first2 /\
    used_top_k found = k /\
    trace (snd (search_query query documents top_k s))
    = trace s ++ [ev1; ev2; db_embed (row first1); db_search (row first2) k].
Proof.
  destruct (search_query query documents top_k s) as [r s'] eqn:E.
  cbn [fst snd]. intros ->. revert E.
  unfold search_query. unfold bind at 1, get at 1.
  destruct (attached_db (self s)) as [db|]; [|intros [=]].
  unfold bind at 1. rewrite get_embedding_run.
  destruct (Self.model (self s)) as [client|] eqn:Hm; [|intros [=]].
  destruct (create client (trace s) documents _) as [e|[|first1 rest1]] eqn:C1;
    [intros [=] | intros [=] |].
  rewrite getitem_first, reshape_row.
  unfold bind at 1. rewrite get_embedding_run. cbn [self record trace].
  rewrite Hm.
  destruct (create client _ [query] _) as [e|[|first2 rest2]] eqn:C2;
    [intros [=] | intros [=] |].
  rewrite getitem_first, reshape_row.
  unfold bind, call, ret. cbn [self record trace].
  rewrite <- ?app_assoc. cbn [app].
  destruct (embed db _ _) as [e|[]] eqn:E1; [intros [=]|].
  rewrite <- ?app_assoc. cbn [app].
  destruct (search_index db _ _ _) as [e|[sc idx]] eqn:E2; [intros [=]|].
  intros [= <- <-]. cbn [used_top_k query_encoded scores indices fst snd
                         self trace record].
  exists db, client, first1, rest1, first2, rest2. cbv zeta.
  rewrite <- ?app_assoc. cbn [app].
  repeat split; assumption.
Qed.


Lemma search_collect_trace (documents : list string) (found : Found)
                           (s : state) :
  trace (snd (search_collect documents found s)) = trace s /\
  openai_api_key (snd (search_collect documents found s)) = openai_api_key s.
Proof.
  unfold search_collect, bind, lift, set_log, set_self, modify, ret.
  destruct (for_each _ _); split; reflexivity.
Qed.

(** X5.  A [search] that reaches the index has made exactly four calls:
    embed the documents, embed the query, fill the index, query the index.
    The array given to [db.embed] is the single row of the first embedding
    of the provider's response for the documents, however many documents
    there are. *)
Theorem search_fills_index_with_first_embedding_only
    (s : state) (query : string) (documents : list string) (top_k : Z)
    (found : Found) :
  fst (search_query query documents top_k s) = ok found ->
  exists client first rest,
    Self.model (self s) = Some client /\
    create client (trace s) documents (Self.model_name (self s))
    = ok (first :: rest) /\
    trace (snd (search query documents top_k s))
    = trace s ++ [embeddings_create documents (Self.model_name (self s));
                  embeddings_create [query] (Self.model_name (self s));
                  db_embed (row first);
                  db_search (query_encoded found) (used_top_k found)].
Proof.
  intros Hfound.
  destruct (search_query_inv _ _ _ _ _ Hfound)
    as (db & client & first1 & rest1 & first2 & rest2 & _ & Hm & Hrun).
  cbv zeta in Hrun.
  destruct Hrun as (C1 & _ & _ & _ & Hqe & Hk & Htrace).
  exists client, first1, rest1. repeat split; [exact Hm | exact C1 |].
  rewrite Hqe, Hk, <- Htrace, search_eq.
  destruct (search_query query documents top_k s) as [[e|f] s'];
    [reflexivity | apply search_collect_trace].
Qed.

Lemma search_query_frame (query : string) (documents : list string)
                         (top_k : Z) (s : state) :
  self (snd (search_query query documents top_k s)) = self s /\
  openai_api_key (snd (search_query query documents top_k s))
  = openai_api_key s.
Proof.
  destruct (search_query query documents top_k s) as [r s'] eqn:E.
  cbn [snd]. revert E.
  unfold search_query. unfold bind at 1, get at 1.
  destruct (attached_db (self s)) as [db|]; [|now intros [= _ <-]].
  unfold bind at 1.
  destruct (get_embedding_frame documents s) as (Hs1 & Hk1).
  destruct (get_embedding documents s) as [[e|de] s1]; cbn [fst snd] in *;
    [intros [= _ <-]; now split|].
  unfold bind at 1.
  destruct (get_embedding_frame [query] s1) as (Hs2 & Hk2).
  destruct (get_embedding [query] s1) as [[e|qe] s2]; cbn [fst snd] in *;
    [intros [= _ <-]; split; congruence|].
  unfold bind, call, ret.
  destruct (embed db _ _) as [e|[]];
    [intros [= _ <-]; cbn; split; congruence|].
  destruct (search_index db _ _ _) as [e|[sc idx]];
    intros [= _ <-]; cbn; split; congruence.
Qed.

Lemma for_each_length {A B} (f : A -> result B) (xs : list A) (ys : list B) :
  for_each f xs = ok ys -> List.length ys = List.length xs.
Proof.
  revert ys; induction xs as [|x xs IH]; intros ys; cbn [for_each].
  - now intros [= <-].
  - destruct (f x); [intros [=]|].
    destruct (for_each f xs) as [e|zs]; [intros [=]|].
    intros [= <-]. cbn. f_equal. now apply IH.
Qed.

Lemma search_ok_inv (s : state) (query : string) (documents : list string)
                    (top_k : Z) (docs : list string) :
  fst (search query documents top_k s) = ok docs ->
  exists found,
    fst (search_query query documents top_k s) = ok found /\
    for_each (getitem documents) (indices found) = ok docs.
Proof.
  rewrite search_eq.
  destruct (search_query query documents top_k s) as [[e|found] s'];
    [intros [=]|].
  unfold search_collect, bind, lift.
  destruct (for_each (getitem documents) (indices found)) as [e|ds] eqn:F;
    [intros [=]|].
  cbn. intros [= <-]. now exists found.
Qed.

(** X6.  A [search] that returns has stored the positions, the scores and
    the pair of encoded query and resolved [top_k] under the log keys
    ["indices"], ["scores"] and ["search_params"]; every other log entry,
    every other attribute and [openai.api_key] are as before. *)
Theorem search_logs_its_last_successful_call
    (s : state) (query : string) (documents : list string) (top_k : Z)
    (docs : list string) :
  fst (search query documents top_k s) = ok docs ->
  let s' := snd (search query documents top_k s) in
  exists found,
    fst (search_query query documents top_k s) = ok found /\
    Self.logs (self s') !! "indices" = Some (LogIndices (indices found)) /\
    Self.logs (self s') !! "scores" = Some (LogScores (scores found)) /\
    Self.logs (self s') !! "search_params"
    = Some (LogSearchParams (query_encoded found) (used_top_k found)) /\
    (forall key, key <> "indices" -> key <> "scores" ->
                 key <> "search_params" ->
                 Self.logs (self s') !! key = Self.logs (self s) !! key) /\
    Self.api_key (self s') = Self.api_key (self s) /\
    Self.model_name (self s') = Self.model_name (self s) /\
    Self.model (self s') = Self.model (self s) /\
    Self.top_k (self s') = Self.top_k (self s) /\
    Self.db (self s') = Self.db (self s) /\
    openai_api_key s' = openai_api_key s.
Proof.
  intros Hok. cbv zeta.
  destruct (search_ok_inv _ _ _ _ _ Hok) as (found & Hfound & Hdocs).
  exists found. split; [exact Hfound|].
  destruct (search_query_frame query documents top_k s) as (Hself & Hkey).
  rewrite search_eq.
  destruct (search_query query documents top_k s) as [r s1].
  cbn [fst snd] in *. subst r.
  unfold search_collect, bind, lift, set_log, set_self, modify, ret.
  rewrite Hdocs. cbn. rewrite Hself, Hkey.
  repeat split.
  - rewrite lookup_insert_ne, lookup_insert_ne by discriminate.
    apply lookup_insert_eq.
  - rewrite lookup_insert_ne by discriminate. apply lookup_insert_eq.
  - apply lookup_insert_eq.
  - intros key H1 H2 H3.
    now rewrite !lookup_insert_ne by congruence.
Qed.

(** X7.  A [search] that raises, wherever it does, leaves the object as it
    was, log included, and [openai.api_key] too. *)
Theorem search_failure_leaves_object_untouched
    (s : state) (query : string) (documents : list string) (top_k : Z)
    (e : exn) :
  fst (search query documents top_k s) = raise e ->
  self (snd (search query documents top_k s)) = self s /\
  openai_api_key (snd (search query documents top_k s)) = openai_api_key s.
Proof.
  destruct (search_query_frame query documents top_k s) as (Hself & Hkey).
  rewrite search_eq.
  destruct (search_query query documents top_k s) as [[e'|found] s1];
    cbn [fst snd] in *; [now split|].
  unfold search_collect, bind, lift.
  destruct (for_each (getitem documents) (indices found)); [now split|].
  cbn. intros [=].
Qed.

(** X8.  A [search] that returns gives one document per position the
    index returned, read off the positions alone: the result is as long as
    the list of positions, whatever [top_k] was asked for. *)
Theorem search_returns_one_document_per_position
    (s : state) (query : string) (documents : list string) (top_k : Z)
    (docs : list string) :
  fst (search query documents top_k s) = ok docs ->
  exists found,
    fst (search_query query documents top_k s) = ok found /\
    for_each (getitem documents) (indices found) = ok docs /\
    List.length docs = List.length (indices found).
Proof.
  intros Hok.
  destruct (search_ok_inv _ _ _ _ _ Hok) as (found & Hfound & Hdocs).
  exists found. repeat split; [exact Hfound | exact Hdocs |].
  now apply for_each_length in Hdocs.
Qed.



Lemma setup_then_get_embedding_uses_resolved_model_name_witness :
  let s := Faulty.augmenter None IsNone ∅ in
  let s1 := snd (_setup Stub.OpenAI s) in
  fst (_setup Stub.OpenAI s) = ok tt /\
  openai_api_key s1 = Some "sk"%string /\
  trace (snd (get_embedding ["a"; "b"] s1))
  = [OpenAI_new "sk";
     embeddings_create ["a"; "b"] "text-embedding-3-small"] /\
  fst (get_embedding ["a"; "b"] s1)
  = ok {| shape := [1; 2]%nat; data := [0.5%float; 0.25%float] |}.
Proof.
  exact (setup_then_get_embedding_uses_resolved_model_name
           Stub.OpenAI (Faulty.augmenter None IsNone ∅) "sk" Stub.client
           ["a"; "b"] eq_refl ltac:(discriminate) eq_refl).
Defined.

Lemma setup_keeps_global_key_when_client_fails_witness :
  let s := Faulty.augmenter None IsNone ∅ in
  fst (_setup Faulty.OpenAI s) = raise Faulty.refused /\
  openai_api_key (snd (_setup Faulty.OpenAI s)) = Some "sk"%string /\
  Self.model_name (self (snd (_setup Faulty.OpenAI s)))
  = "text-embedding-3-small"%string /\
  Self.model (self (snd (_setup Faulty.OpenAI s))) = None.
Proof.
  exact (setup_keeps_global_key_when_client_fails
           Faulty.OpenAI (Faulty.augmenter None IsNone ∅) "sk" Faulty.refused
           eq_refl ltac:(discriminate) eq_refl).
Defined.

Lemma get_embedding_fails_only_with_provider_or_empty_answer_witness :
  fst (get_embedding ["a"]
         (Faulty.augmenter (Some Faulty.silent_client) IsNone ∅))
  = raise (IndexError "list index out of range").
Proof.
  exact (get_embedding_fails_only_with_provider_or_empty_answer
           ["a"] (Faulty.augmenter (Some Faulty.silent_client) IsNone ∅)
           Faulty.silent_client eq_refl).
Defined.

Lemma search_fills_index_with_first_embedding_only_witness :
  exists client first rest,
    Some Stub.client = Some client /\
    create client [] ["a"; "b"; "c"] "text-embedding-3-small"
    = ok (first :: rest) /\
    trace (snd (search "q" ["a"; "b"; "c"] 1
                  (Stub.augmenter (Some "sk") (Value (Stub.index [1%Z])))))
    = [] ++ [embeddings_create ["a"; "b"; "c"] "text-embedding-3-small";
             embeddings_create ["q"] "text-embedding-3-small";
             db_embed (row first);
             db_search (row [0.5%float; 0.25%float]) 1].
Proof.
  exact (search_fills_index_with_first_embedding_only
           (Stub.augmenter (Some "sk") (Value (Stub.index [1%Z])))
           "q" ["a"; "b"; "c"] 1
           {| query_encoded := row [0.5%float; 0.25%float];
              used_top_k := 1; scores := [1%float]; indices := [1%Z] |}
           eq_refl).
Defined.

Lemma search_logs_its_last_successful_call_witness :
  Self.logs
    (self (snd (search "q" ["a"; "b"] 0
                  (Faulty.augmenter (Some Stub.client)
                                    (Value (Stub.index [1%Z]))
                                    {[ "indices" := LogIndices [7%Z] ]}))))
    !! "indices"
  = Some (LogIndices [1%Z]).
Proof.
  destruct (search_logs_its_last_successful_call
              (Faulty.augmenter (Some Stub.client) (Value (Stub.index [1%Z]))
                                {[ "indices" := LogIndices [7%Z] ]})
              "q" ["a"; "b"] 0 ["b"] eq_refl)
    as (found & Hfound & Hindices & _).
  cbv zeta in Hindices. rewrite Hindices.
  injection Hfound as <-. reflexivity.
Defined.

Lemma search_failure_leaves_object_untouched_witness :
  let s := Faulty.augmenter (Some Faulty.tired_client)
                            (Value (Stub.index [0%Z]))
                            {[ "indices" := LogIndices [7%Z] ]} in
  self (snd (search "q" ["a"; "b"] 0 s)) = self s /\
  openai_api_key (snd (search "q" ["a"; "b"] 0 s)) = openai_api_key s.
Proof.
  exact (search_failure_leaves_object_untouched
           (Faulty.augmenter (Some Faulty.tired_client)
                             (Value (Stub.index [0%Z]))
                             {[ "indices" := LogIndices [7%Z] ]})
           "q" ["a"; "b"] 0 Faulty.refused eq_refl).
Defined.

Lemma search_returns_one_document_per_position_witness :
  exists found,
    fst (search_query "q" ["a"; "b"] 1
           (Stub.augmenter (Some "sk") (Value (Stub.index [0; 1; 0]%Z))))
    = ok found /\
    for_each (getitem ["a"; "b"]) (indices found) = ok ["a"; "b"; "a"] /\
    List.length ["a"; "b"; "a"] = List.length (indices found).
Proof.
  exact (search_returns_one_document_per_position
           (Stub.augmenter (Some "sk") (Value (Stub.index [0; 1; 0]%Z)))
           "q" ["a"; "b"] 1 ["a"; "b"; "a"] eq_refl).
Defined.

End OpenAIAugMore.

(** ** More properties of [LlamaGen] *)

Module LlamaGenMore.

Import Py Eff LlamaGen PyFacts Notions PyMore LlamaGenSpec.

(** X10.  On a response with at least one sequence the answer extraction
    never fails and looks at the first sequence only.  The answer is
    stripped: it neither starts nor ends with whitespace, and stripping it
    again changes nothing.  The marker ["Answer:"] does not occur in it. *)
Theorem extract_answer_is_trimmed_and_marker_free
    (d : gmap string string) (rest : list (gmap string string)) :
  exists answer,
    extract_answer (d :: rest) = ok answer /\
    extract_answer [d] = ok answer /\
    strip answer = answer /\
    trimmed answer /\
    ~ occurs marker answer.
Proof.
  set (text := default ""%string (d !! "generated_text")).
  assert (Hrun : forall rest', extract_answer (d :: rest')
                 = match getitem (split_max (String.length text) text marker)
                                 (-1) with
                   | inl e => raise e
                   | inr piece => ok (strip piece)
                   end).
  { intros rest'. unfold extract_answer.
    change (getitem (d :: rest') 0) with (ok d : result (gmap string string)).
    reflexivity. }
  assert (Hpiece : exists piece,
             getitem (split_max (String.length text) text marker) (-1)
             = ok piece /\ ~ occurs marker piece).
  { destruct (occurs_dec marker text) as [Hocc | Hno].
    - destruct (last_occurrence marker text) as (pre & post & Htext & Hlast);
        [discriminate | exact Hocc |].
      exists post. split; [|exact Hlast].
      pose proof (split_max_last (String.length text) pre post) as H.
      rewrite <- Htext in H. now apply H.
    - exists text. split; [|exact Hno]. now rewrite split_max_absent. }
  destruct Hpiece as (piece & Hget & Hfree).
  exists (strip piece). rewrite !Hrun, Hget.
  repeat split.
  - apply strip_idempotent.
  - apply strip_trimmed.
  - intros Hocc. apply Hfree.
    destruct (strip_split piece) as (l & r & Hpiece & _).
    rewrite Hpiece. now apply occurs_inside.
Qed.


Section Generator.

Variable CausalLM : Type.
Variable AutoTokenizer :
  list event -> string -> option string -> result Tokenizer.
Variable AutoModelForCausalLM :
  list event -> string -> option string -> torch_dtype -> result CausalLM.
Variable pipeline :
  list event -> string -> CausalLM -> Tokenizer -> Z -> result Pipeline.
Variable detect : list event -> string -> result string.
Variable format : string -> string -> string -> result string.

Local Abbreviation St := (state CausalLM).
Local Abbreviation generate := (generate CausalLM detect format).
Local Abbreviation _setup :=
  (_setup CausalLM AutoTokenizer AutoModelForCausalLM pipeline).

Ltac run_setup :=
  unfold LlamaGen._setup, set_self, call, bind, get, modify.

Ltac run_generate :=
  unfold LlamaGen.generate, set_lang_code, set_log, set_self, call,
         bind, get, lift, throw, ret, modify.



(** X16.  When the three calls return, [_setup] returns, having stored the
    tokenizer, the model and the pipeline it was given and nothing else;
    the pipeline was built from that very model and tokenizer. *)
Theorem llama_setup_stores_what_it_loaded
    (s : St) (tok : Tokenizer) (lm : CausalLM) (gen : Pipeline) :
  let name := Self.model_name (self s) in
  let token := Self.api_key (self s) in
  let cuda := is_cuda (Self.device_name (self s)) in
  let dtype := if cuda then float16 else float32 in
  let device := if cuda then 0%Z else (-1)%Z in
  let ev1 := AutoTokenizer_from_pretrained name token in
  let ev2 := AutoModelForCausalLM_from_pretrained name token dtype in
  AutoTokenizer (trace s) name token = ok tok ->
  AutoModelForCausalLM (trace s ++ [ev1]) name token dtype = ok lm ->
  pipeline (trace s ++ [ev1; ev2]) "text-generation" lm tok device = ok gen ->
  _setup s
  = (ok tt,
     {| self :=
          {| Self.model_name := Self.model_name (self s);
             Self.api_key := Self.api_key (self s);
             Self.device_name := Self.device_name (self s);
             Self.temperature := Self.temperature (self s);
             Self.output_max_length := Self.output_max_length (self s);
             Self.prompt_template := Self.prompt_template (self s);
             Self.tokenizer := Some tok;
             Self.model := Some lm;
             Self.generator := Some gen;
             Self.logs := Self.logs (self s) |};
        trace := trace s
                 ++ [ev1; ev2; pipeline_new "text-generation" device] |}).
Proof.
  cbv zeta. intros Htok Hlm Hgen. run_setup. rewrite Htok.
  cbn [self trace record Self.model_name Self.api_key Self.device_name].
  rewrite Hlm.
  cbn [self trace record Self.model_name Self.api_key Self.device_name].
  rewrite <- app_assoc. cbn [app]. rewrite Hgen.
  cbn. now rewrite <- !app_assoc.
Qed.

(** X17.  When the model loader raises, [_setup] passes the exception on
    with the tokenizer already stored; the model and the pipeline of the
    object are what they were, and the pipeline factory was not called. *)
Theorem llama_setup_keeps_tokenizer_when_model_fails
    (s : St) (tok : Tokenizer) (e : exn) :
  let name := Self.model_name (self s) in
  let token := Self.api_key (self s) in
  let dtype := if is_cuda (Self.device_name (self s))
               then float16 else float32 in
  let ev1 := AutoTokenizer_from_pretrained name token in
  AutoTokenizer (trace s) name token = ok tok ->
  AutoModelForCausalLM (trace s ++ [ev1]) name token dtype = raise e ->
  fst (_setup s) = raise e /\
  Self.tokenizer (self (snd (_setup s))) = Some tok /\
  Self.model (self (snd (_setup s))) = Self.model (self s) /\
  Self.generator (self (snd (_setup s))) = Self.generator (self s) /\
  trace (snd (_setup s))
  = trace s ++ [ev1; AutoModelForCausalLM_from_pretrained name token dtype].
Proof.
  cbv zeta. intros Htok Hlm. run_setup. rewrite Htok.
  cbn [self trace record Self.model_name Self.api_key Self.device_name].
  rewrite Hlm. cbn. now rewrite <- app_assoc.
Qed.


(** The state a run of [generate] ends in once the detector has answered. *)
Lemma generate_state
    (s : St) (query : string) (context : list string)
    (input_text detected : string) (tok : Tokenizer) (g : Pipeline) :
  format (Self.prompt_template (self s)) query (join " " context)
  = ok input_text ->
  detect (trace s) query = ok detected ->
  Self.tokenizer (self s) = Some tok ->
  Self.generator (self s) = Some g ->
  let language := if truthy_str detected then detected else "en"%string in
  let tok' := {| lang_code := Some language;
                 eos_token_id := eos_token_id tok |} in
  let params := model_params CausalLM (self s) input_text tok' in
  let answer := run g (trace s ++ [detect_call query]) tok' params in
  snd (generate query context s)
  = {| self :=
         {| Self.model_name := Self.model_name (self s);
            Self.api_key := Self.api_key (self s);
            Self.device_name := Self.device_name (self s);
            Self.temperature := Self.temperature (self s);
            Self.output_max_length := Self.output_max_length (self s);
            Self.prompt_template := Self.prompt_template (self s);
            Self.tokenizer := Some tok';
            Self.model := Self.model (self s);
            Self.generator := Some g;
            Self.logs := match answer with
                         | inl _ => Self.logs (self s)
                         | inr _ =>
                             <["model_params" := params]> (Self.logs (self s))
                         end |};
       trace := trace s ++ [detect_call query; generator_call params] |}.
Proof.
  intros Hformat Hdetect Htok Hgen.
  run_generate. rewrite Hformat, Hdetect. cbn [self trace record].
  rewrite Htok. cbn [self trace record Self.generator Self.tokenizer].
  rewrite Hgen. cbn [self trace record].
  unfold str.
  destruct (run g _ _ _); unfold record; cbn; rewrite <- ?app_assoc;
    reflexivity.
Qed.

(** X11.  A language the detector names is set on the tokenizer as it
    is, and stays set when the pipeline then raises: [generate] passes the
    exception on and writes nothing to the log. *)
Theorem generate_keeps_language_hint_when_pipeline_fails
    (s : St) (query : string) (context : list string)
    (input_text detected : string) (tok : Tokenizer) (g : Pipeline)
    (e : exn) :
  format (Self.prompt_template (self s)) query (join " " context)
  = ok input_text ->
  detect (trace s) query = ok detected ->
  detected <> ""%string ->
  Self.tokenizer (self s) = Some tok ->
  Self.generator (self s) = Some g ->
  let tok' := {| lang_code := Some detected;
                 eos_token_id := eos_token_id tok |} in
  run g (trace s ++ [detect_call query]) tok'
      (model_params CausalLM (self s) input_text tok') = raise e ->
  fst (generate query context s) = raise e /\
  Self.tokenizer (self (snd (generate query context s))) = Some tok' /\
  Self.logs (self (snd (generate query context s))) = Self.logs (self s).
Proof.
  intros Hformat Hdetect Hne Htok Hgen. cbv zeta. intros Hrun.
  destruct (generate_run CausalLM detect format s query context input_text
              detected tok g Hformat Hdetect Htok Hgen) as (Hfst & _).
  pose proof (generate_state s query context input_text detected tok g
                Hformat Hdetect Htok Hgen) as Hsnd.
  cbv zeta in Hfst, Hsnd.
  destruct detected as [|c d]; [congruence|]. cbn [truthy_str] in *.
  rewrite Hrun in Hfst, Hsnd. rewrite Hfst, Hsnd. repeat split.
Qed.

(** X12.  When the pipeline returns, the log entry ["model_params"] holds
    exactly the parameters the pipeline was called with, also when the
    answer extraction then fails; other log entries are kept.  The
    parameters are the formatted prompt, the configured output length and
    temperature, the tokenizer's end-of-sequence id, sampling on, top-k 50,
    top-p 0.95 and one returned sequence. *)
Theorem generate_logs_the_parameters_it_sent
    (s : St) (query : string) (context : list string)
    (input_text detected : string) (tok : Tokenizer) (g : Pipeline)
    (response : list (gmap string string)) :
  format (Self.prompt_template (self s)) query (join " " context)
  = ok input_text ->
  detect (trace s) query = ok detected ->
  Self.tokenizer (self s) = Some tok ->
  Self.generator (self s) = Some g ->
  let language := if truthy_str detected then detected else "en"%string in
  let tok' := {| lang_code := Some language;
                 eos_token_id := eos_token_id tok |} in
  let params := model_params CausalLM (self s) input_text tok' in
  run g (trace s ++ [detect_call query]) tok' params = ok response ->
  let s' := snd (generate query context s) in
  fst (generate query context s) = extract_answer response /\
  trace s' = trace s ++ [detect_call query; generator_call params] /\
  Self.logs (self s') !! "model_params" = Some params /\
  (forall key, key <> "model_params" ->
               Self.logs (self s') !! key = Self.logs (self s) !! key) /\
  Params.text_inputs params = input_text /\
  Params.max_new_tokens params = Self.output_max_length (self s) /\
  Params.temperature params = Self.temperature (self s) /\
  Params.eos_token_id params = eos_token_id tok /\
  Params.do_sample params = true /\
  Params.top_k params = 50%Z /\
  Params.top_p params = 0x1.e666666666666p-1%float /\
  Params.num_return_sequences params = 1%Z.
Proof.
  intros Hformat Hdetect Htok Hgen. cbv zeta. intros Hrun.
  destruct (generate_run CausalLM detect format s query context input_text
              detected tok g Hformat Hdetect Htok Hgen) as (Hfst & _).
  pose proof (generate_state s query context input_text detected tok g
                Hformat Hdetect Htok Hgen) as Hsnd.
  cbv zeta in Hfst, Hsnd. rewrite Hrun in Hfst, Hsnd.
  rewrite Hfst, Hsnd. cbn [self trace Self.logs].
  repeat split.
  - apply lookup_insert_eq.
  - intros key Hkey. now rewrite lookup_insert_ne by congruence.
Qed.

(** X18.  Whatever its outcome, [generate] writes to nothing but the
    tokenizer's language hint and the log entry ["model_params"]: the
    configuration, the model, the pipeline, the tokenizer's end-of-sequence
    id and all other log entries are as before. *)
Theorem generate_changes_only_language_hint_and_log
    (s : St) (query : string) (context : list string) :
  let s' := snd (generate query context s) in
  Self.model_name (self s') = Self.model_name (self s) /\
  Self.api_key (self s') = Self.api_key (self s) /\
  Self.device_name (self s') = Self.device_name (self s) /\
  Self.temperature (self s') = Self.temperature (self s) /\
  Self.output_max_length (self s') = Self.output_max_length (self s) /\
  Self.prompt_template (self s') = Self.prompt_template (self s) /\
  Self.model (self s') = Self.model (self s) /\
  Self.generator (self s') = Self.generator (self s) /\
  eos_token_id <$> Self.tokenizer (self s')
  = eos_token_id <$> Self.tokenizer (self s) /\
  (forall key, key <> "model_params" ->
               Self.logs (self s') !! key = Self.logs (self s) !! key).
Proof.
  cbv zeta. run_generate.
  destruct (format _ _ _) as [e|input_text]; [cbn; repeat split|].
  destruct (detect _ _) as [e|detected]; [cbn; repeat split|].
  cbn [self trace record].
  destruct (Self.tokenizer (self s)) as [tok|] eqn:Htok;
    [|cbn; rewrite ?Htok; repeat split].
  cbn [self trace record Self.generator Self.tokenizer].
  destruct (Self.generator (self s)) as [g|] eqn:Hgen;
    [|cbn; rewrite ?Hgen; repeat split].
  cbn [self trace record].
  destruct (run g _ _ _) as [e|response]; cbn; rewrite ?Hgen; repeat split.
  intros key Hkey. now rewrite lookup_insert_ne by congruence.
Qed.

End Generator.

(** X19.  The answer extraction on a response without any sequence raises
    [IndexError]; a first sequence without the key ["generated_text"] gives
    the empty answer. *)
Theorem extract_answer_on_empty_response_and_missing_text :
  extract_answer [] = raise (IndexError "list index out of range") /\
  forall (d : gmap string string) rest,
    d !! "generated_text" = None -> extract_answer (d :: rest) = ok ""%string.
Proof.
  split; [reflexivity|].
  intros d rest Hd. unfold extract_answer.
  change (getitem (d :: rest) 0) with (ok d : result (gmap string string)).
  cbv beta iota. rewrite Hd. reflexivity.
Qed.


Lemma llama_setup_stores_what_it_loaded_witness :
  fst (_setup unit Stub.AutoTokenizer Stub.AutoModelForCausalLM Stub.pipeline
         (Stub.llama "meta-llama/Llama-3.2-1B" (Some "hf_token") false))
  = ok tt /\
  Self.tokenizer
    (self (snd (_setup unit Stub.AutoTokenizer Stub.AutoModelForCausalLM
                  Stub.pipeline
                  (Stub.llama "meta-llama/Llama-3.2-1B" (Some "hf_token")
                              false))))
  = Some Stub.tokenizer.
Proof.
  rewrite (llama_setup_stores_what_it_loaded
             unit Stub.AutoTokenizer Stub.AutoModelForCausalLM Stub.pipeline
             (Stub.llama "meta-llama/Llama-3.2-1B" (Some "hf_token") false)
             Stub.tokenizer tt (Stub.generator "Answer: 42")
             eq_refl eq_refl eq_refl).
  split; reflexivity.
Defined.

Lemma llama_setup_keeps_tokenizer_when_model_fails_witness :
  let s := Stub.llama "meta-llama/Llama-3.2-1B" (Some "hf_token") false in
  let out := _setup unit Stub.AutoTokenizer Faulty.AutoModelForCausalLM
                    Stub.pipeline s in
  fst out = raise Faulty.out_of_memory /\
  Self.tokenizer (self (snd out)) = Some Stub.tokenizer /\
  Self.model (self (snd out)) = None /\
  Self.generator (self (snd out)) = None /\
  trace (snd out)
  = [] ++ [AutoTokenizer_from_pretrained "meta-llama/Llama-3.2-1B"
             (Some "hf_token");
           AutoModelForCausalLM_from_pretrained "meta-llama/Llama-3.2-1B"
             (Some "hf_token") float32].
Proof.
  exact (llama_setup_keeps_tokenizer_when_model_fails
           unit Stub.AutoTokenizer Faulty.AutoModelForCausalLM Stub.pipeline
           (Stub.llama "meta-llama/Llama-3.2-1B" (Some "hf_token") false)
           Stub.tokenizer Faulty.out_of_memory eq_refl eq_refl).
Defined.

Lemma generate_keeps_language_hint_when_pipeline_fails_witness :
  let s := Faulty.llama "cpu" Faulty.broken_generator in
  let out := generate unit Faulty.detect_fr Stub.format "q" ["ctx"] s in
  fst out = raise Faulty.out_of_memory /\
  Self.tokenizer (self (snd out))
  = Some {| lang_code := Some "fr"%string; eos_token_id := Some 2%Z |} /\
  Self.logs (self (snd out)) = ∅.
Proof.
  exact (generate_keeps_language_hint_when_pipeline_fails
           unit Faulty.detect_fr Stub.format
           (Faulty.llama "cpu" Faulty.broken_generator) "q" ["ctx"]
           "q ctx" "fr" Stub.tokenizer Faulty.broken_generator
           Faulty.out_of_memory
           eq_refl eq_refl ltac:(discriminate) eq_refl eq_refl eq_refl).
Defined.

Lemma generate_logs_the_parameters_it_sent_witness :
  let s := Faulty.llama "cpu" Faulty.silent_generator in
  let out := generate unit Faulty.detect_fr Stub.format "q" ["ctx"] s in
  fst out = raise (IndexError "list index out of range") /\
  Params.text_inputs <$> (Self.logs (self (snd out)) !! "model_params")
  = Some "q ctx"%string.
Proof.
  destruct (generate_logs_the_parameters_it_sent
              unit Faulty.detect_fr Stub.format
              (Faulty.llama "cpu" Faulty.silent_generator) "q" ["ctx"]
              "q ctx" "fr" Stub.tokenizer Faulty.silent_generator []
              eq_refl eq_refl eq_refl eq_refl eq_refl)
    as (Hfst & _ & Hlog & _).
  cbv zeta. rewrite Hfst, Hlog. split; reflexivity.
Defined.

Lemma extract_answer_on_empty_response_and_missing_text_witness :
  extract_answer [ {[ "score" := "1" ]} ] = ok ""%string.
Proof.
  exact (proj2 extract_answer_on_empty_response_and_missing_text
               {[ "score" := "1" ]} [] eq_refl).
Defined.

End LlamaGenMore.
